(** * ECSOperator: a shallow embedding of
      airflow/providers/amazon/aws/operators/ecs.py

    The operator launches one task on the container service, waits for it
    to stop, classifies the terminal description and reports the last log
    line.  The embedding follows the Python source method by method:

    - dictionaries returned by the service are records whose fields are
      [option]s: [d.get(k, dflt)] is [default dflt (k d)], and [d[k]] is
      [getitem], which raises [KeyError] when the key is absent;
    - the keyword dictionary [run_opts] is a [gmap string pyval];
    - [self], the trace of calls made to the collaborators and the XCom
      side table form the state threaded by the monad [M], in which a raised
      exception keeps the state reached so far;
    - Python strings are [string]s, character by character; [lower] maps
      the letters A to Z, the only characters whose lower case is a letter
      of the words looked for;
    - what the methods write to the log of the operator is left out; the
      conversion of the time stamp of each log event, which comes before the
      writing and can raise, is kept. *)

From Stdlib Require Import ZArith Ascii String.
From stdpp Require Import base option list strings gmap fin_maps.

Local Open Scope Z_scope.

(** ** Strings *)

Module Str.

(** [s.startswith(p)]. *)
Fixpoint is_prefix (p s : string) : bool :=
  match p, s with
  | EmptyString, _ => true
  | String a p', String b s' => Ascii.eqb a b && is_prefix p' s'
  | String _ _, EmptyString => false
  end.

(** [needle in hay]. *)
Fixpoint contains (needle hay : string) : bool :=
  is_prefix needle hay ||
  match hay with
  | EmptyString => false
  | String _ hay' => contains needle hay'
  end.

Definition is_upper (c : ascii) : bool :=
  let n := N_of_ascii c in ((65 <=? n) && (n <=? 90))%N.

Definition lower_ascii (c : ascii) : ascii :=
  if is_upper c then ascii_of_N (N_of_ascii c + 32) else c.

(** [s.lower()]. *)
Fixpoint lower (s : string) : string :=
  match s with
  | EmptyString => EmptyString
  | String c s' => String (lower_ascii c) (lower s')
  end.

(** [s.split(sep)] for a one-character separator. *)
Fixpoint split (sep : ascii) (s : string) : list string :=
  match s with
  | EmptyString => [EmptyString]
  | String c s' =>
      if Ascii.eqb c sep then EmptyString :: split sep s'
      else match split sep s' with
           | h :: t => String c h :: t
           | [] => [String c EmptyString]
           end
  end.

(** [sep.join(l)]. *)
Fixpoint join (sep : ascii) (l : list string) : string :=
  match l with
  | [] => EmptyString
  | [x] => x
  | x :: l' => x +:+ String sep (join sep l')
  end.

(** [s] with the prefix [p] removed, when [s] starts with [p]. *)
Fixpoint strip_prefix (p s : string) : option string :=
  match p, s with
  | EmptyString, _ => Some s
  | String a p', String b s' =>
      if Ascii.eqb a b then strip_prefix p' s' else None
  | String _ _, EmptyString => None
  end.

End Str.

(** ** The pattern of a host that went away

    [re.match(r'Host EC2 \(instance .+?\) (stopped|terminated)\.', s)]:
    the match is anchored at the start of [s] only; [.] is any character but
    a line feed; [.+?] takes at least one character. Whether a match exists
    does not depend on the quantifier being lazy. *)

Definition newline : ascii := ascii_of_N 10.

Definition re_closing (s : string) : bool :=
  Str.is_prefix ") stopped." s || Str.is_prefix ") terminated." s.

Fixpoint re_instance (s : string) : bool :=
  match s with
  | EmptyString => false
  | String c s' =>
      if Ascii.eqb c newline then false
      else re_closing s' || re_instance s'
  end.

Definition re_match_host (s : string) : bool :=
  match Str.strip_prefix "Host EC2 (instance " s with
  | Some rest => re_instance rest
  | None => false
  end.

(** ** Values passed through to the service *)

#[local] Unset Elimination Schemes.
Inductive pyval :=
| PNone
| PBool (b : bool)
| PInt (z : Z)
| PStr (s : string)
| PList (l : list pyval)
| PDict (d : list (string * pyval)).
#[local] Set Elimination Schemes.

(** ** Dictionaries returned by the service *)

Module Failure.
Record t := mk { arn : option string; reason : option string; detail : option string }.
End Failure.

Module Container.
Record t := mk {
  name : option string;
  lastStatus : option string;
  exitCode : option Z;
  reason : option string }.
End Container.

Record Task := mkTask {
  taskArn : option string;
  stoppedReason : option string;
  containers : option (list Container.t) }.

(** The answer of [run_task] and of [describe_tasks]. *)
Record Response := mkResponse {
  failures : option (list Failure.t);
  tasks : option (list Task) }.

Record TaskDefinition := mkTaskDefinition { family : option string }.
Record DescribeTaskDefinitionResponse := mkDTDR { taskDefinition : option TaskDefinition }.
Record ListTasksResponse := mkLTR { taskArns : option (list string) }.

(** ** Exceptions *)

(** The argument an [AirflowException] is built from; the formatted texts
    are kept as their template and the value put in it. *)
Inductive exn_arg :=
| MsgResponse (response : Response)
| MsgHostTerminated (stopped_reason : string)
| MsgNotInSuccessState (task : Task)
| MsgStillPending (task : Task)
| MsgLaunchError (reason_lower : string).

Inductive exn :=
| AirflowException (m : exn_arg)
| ECSOperatorError (failures : list Failure.t) (message : Response)
| KeyError (key : string)
| IndexError
| AttributeError (attr : string)
| TypeError (missing : string)
| ValueError
| OverflowError
| OSError.

Inductive result (A : Type) :=
| Return (a : A)
| Raise (e : exn).
Arguments Return {A} a.
Arguments Raise {A} e.

(** Sequencing in [result]: an exception ends the computation. *)
Definition result_bind {A B} (r : result A) (k : A → result B) : result B :=
  match r with
  | Return a => k a
  | Raise e => Raise e
  end.

Notation "'let+' x ':=' c 'in' k" := (result_bind c (λ x, k))
  (at level 10, x name, c at level 100, k at level 200).

(** [d[k]] on a dictionary whose key [k] may be absent. *)
Definition getitem {A} (field : option A) (key : string) : result A :=
  match field with
  | Some a => Return a
  | None => Raise (KeyError key)
  end.

(** [l[0]] and [l[-1]]. *)
Definition first_item {A} (l : list A) : result A :=
  match l with
  | a :: _ => Return a
  | [] => Raise IndexError
  end.

Definition last_item {A} (l : list A) : result A :=
  match last l with
  | Some a => Return a
  | None => Raise IndexError
  end.

(** ** should_retry

    The predicate for the retry of the start; in this file [_start_task] is
    called by [execute] as it is. *)

(** [any(q in failure['reason'] for failure in failures)] for one marker. *)
Fixpoint any_reason (quota_reason : string) (fs : list Failure.t) : result bool :=
  match fs with
  | [] => Return false
  | failure :: fs' =>
      let+ r := getitem (Failure.reason failure) "reason" in
      if Str.contains quota_reason r then Return true
      else any_reason quota_reason fs'
  end.

(** The generator has the markers in the outer loop. *)
Fixpoint any_quota (quota_reasons : list string) (fs : list Failure.t) : result bool :=
  match quota_reasons with
  | [] => Return false
  | q :: qs =>
      let+ b := any_reason q fs in
      if b then Return true else any_quota qs fs
  end.

Definition should_retry (exception : exn) : result bool :=
  match exception with
  | ECSOperatorError fs _ => any_quota ["RESOURCE:MEMORY"; "RESOURCE:CPU"] fs
  | _ => Return false
  end.

(** ** _check_success_task, the classification of the description *)

Definition stopped_nonzero (container : Container.t) : result bool :=
  if bool_decide (Container.lastStatus container = Some "STOPPED") then
    let+ code := getitem (Container.exitCode container) "exitCode" in
    Return (negb (code =? 0))
  else Return false.

Definition check_container (task : Task) (container : Container.t) : result unit :=
  let+ b := stopped_nonzero container in
  if b then Raise (AirflowException (MsgNotInSuccessState task))
  else if bool_decide (Container.lastStatus container = Some "PENDING") then
    Raise (AirflowException (MsgStillPending task))
  else if Str.contains "error" (Str.lower (default EmptyString (Container.reason container))) then
    Raise (AirflowException
             (MsgLaunchError (Str.lower (default EmptyString (Container.reason container)))))
  else Return ().

Fixpoint check_containers (task : Task) (cs : list Container.t) : result unit :=
  match cs with
  | [] => Return ()
  | container :: cs' => let+ _ := check_container task container in check_containers task cs'
  end.

Definition check_task (task : Task) : result unit :=
  if re_match_host (default EmptyString (stoppedReason task)) then
    Raise (AirflowException (MsgHostTerminated (default EmptyString (stoppedReason task))))
  else
    let+ cs := getitem (containers task) "containers" in
    check_containers task cs.

Fixpoint check_tasks (ts : list Task) : result unit :=
  match ts with
  | [] => Return ()
  | task :: ts' => let+ _ := check_task task in check_tasks ts'
  end.

(** Lines 363 to 388: what [_check_success_task] does with the response. *)
Definition check_response (response : Response) : result unit :=
  if (0 <? length (default [] (failures response)))%nat then
    Raise (AirflowException (MsgResponse response))
  else
    let+ ts := getitem (tasks response) "tasks" in
    check_tasks ts.

(** ** The collaborators *)

(** [ECSProtocol], the client of the container service: what each request
    answers. [get_waiter] gives the waiter whose [wait] blocks until the
    task has stopped; it answers nothing and is seen in the trace only. *)
Record ECSProtocol := mkECS {
  run_task : gmap string pyval → Response;
  describe_tasks : string → list string → Response;
  stop_task : string → string → string → pyval;
  describe_task_definition : string → DescribeTaskDefinitionResponse;
  list_tasks : string → string → string → ListTasksResponse }.

(** Modelled from the spec: [AwsLogsHook] (airflow.providers.amazon.aws.hooks.logs)
    is not among the sources. Section 6 gives the log backend as
    [getLogEvents(group, streamName) -> sequence<LogEvent>] and section 3 a
    [LogEvent] as [{timestampMillis, message}], ordered by occurrence. *)
Record LogEvent := mkLogEvent { timestamp : Z; message : string }.
Record AwsLogsHook := mkLogs { get_log_events : string → string → list LogEvent }.

(** [datetime.fromtimestamp(ms / 1000.0)] for the time stamp [ms] of a log
    event, in milliseconds. Which time stamps have a datetime depends on the
    platform and on its time zone, so the conversion is a parameter of the
    methods that use it. It gives a datetime, of which nothing is used but
    that it exists, or it raises: [ValueError] for a year outside 1 to 9999,
    [OverflowError] for a time stamp outside the range of the platform,
    [OSError] when the local time cannot be computed. *)
Inductive unrepresentable :=
| YearOutOfRange
| OutOfPlatformRange
| NoLocalTime.

Definition unrepresentable_exn (u : unrepresentable) : exn :=
  match u with
  | YearOutOfRange => ValueError
  | OutOfPlatformRange => OverflowError
  | NoLocalTime => OSError
  end.

(** [fromtimestamp] answers [None] when the datetime exists. *)
Record Datetime := mkDatetime { fromtimestamp : Z → option unrepresentable }.

(** The requests made to the collaborators, as they are issued. *)
Inductive call :=
| CallDescribeTaskDefinition (taskDefinition : string)
| CallListTasks (cluster desiredStatus family : string)
| CallRunTask (run_opts : gmap string pyval)
| CallWait (waiter cluster : string) (tasks : list string)
| CallDescribeTasks (cluster : string) (tasks : list string)
| CallStopTask (cluster task reason : string)
| CallGetLogEvents (log_group log_stream_name : string).

(** ** The operator *)

Record ECSOperator := mkOperator {
  (* attributes of BaseOperator the methods read *)
  task_id : string;
  dag_id : string;
  owner : string;
  do_xcom_push : bool;
  (* attributes set by __init__ *)
  aws_conn_id : option string;
  region_name : option string;
  task_definition : string;
  cluster : string;
  overrides : pyval;
  launch_type : option string;
  capacity_provider_strategy : option (list pyval);
  group : option string;
  placement_constraints : option (list pyval);
  placement_strategy : option (list pyval);
  platform_version : string;
  network_configuration : option pyval;
  tags : option (list (string * string));
  awslogs_group : option string;
  awslogs_stream_prefix : option string;
  awslogs_region : option string;
  propagate_tags : option string;
  reattach : bool;
  client : option ECSProtocol;
  arn : option string;
  retry_args : option pyval }.

(** Lines 159 to 211. The keyword arguments of [BaseOperator] the methods
    read come first; the log region falls back on the region of the
    connection; no client and no task exist yet. *)
Definition __init__ (task_id dag_id owner : string) (do_xcom_push : bool)
    (task_definition cluster : string) (overrides : pyval)
    (aws_conn_id region_name launch_type : option string)
    (capacity_provider_strategy : option (list pyval)) (group : option string)
    (placement_constraints placement_strategy : option (list pyval))
    (platform_version : string) (network_configuration : option pyval)
    (tags : option (list (string * string)))
    (awslogs_group awslogs_region awslogs_stream_prefix propagate_tags : option string)
    (quota_retry : option pyval) (reattach : bool) : ECSOperator :=
  mkOperator task_id dag_id owner do_xcom_push aws_conn_id region_name
    task_definition cluster overrides launch_type capacity_provider_strategy
    group placement_constraints placement_strategy platform_version
    network_configuration tags awslogs_group awslogs_stream_prefix
    (match awslogs_region with Some r => Some r | None => region_name end)
    propagate_tags reattach None None quota_retry.

Definition set_client (c : option ECSProtocol) (o : ECSOperator) : ECSOperator :=
  mkOperator (task_id o) (dag_id o) (owner o) (do_xcom_push o) (aws_conn_id o)
    (region_name o) (task_definition o) (cluster o) (overrides o) (launch_type o)
    (capacity_provider_strategy o) (group o) (placement_constraints o)
    (placement_strategy o) (platform_version o) (network_configuration o) (tags o)
    (awslogs_group o) (awslogs_stream_prefix o) (awslogs_region o)
    (propagate_tags o) (reattach o) c (arn o) (retry_args o).

Definition set_arn (a : option string) (o : ECSOperator) : ECSOperator :=
  mkOperator (task_id o) (dag_id o) (owner o) (do_xcom_push o) (aws_conn_id o)
    (region_name o) (task_definition o) (cluster o) (overrides o) (launch_type o)
    (capacity_provider_strategy o) (group o) (placement_constraints o)
    (placement_strategy o) (platform_version o) (network_configuration o) (tags o)
    (awslogs_group o) (awslogs_stream_prefix o) (awslogs_region o)
    (propagate_tags o) (reattach o) (client o) a (retry_args o).

Definition REATTACH_XCOM_KEY : string := "ecs_task_arn".

(** [REATTACH_XCOM_TASK_ID_TEMPLATE.format(task_id=...)]. *)
Definition REATTACH_XCOM_TASK_ID (task_id : string) : string :=
  task_id +:+ "_task_arn".

(** Truth value testing, as [if x:] and [not x] do it. *)
Class Truthy (A : Type) := truthy : A → bool.
#[global] Instance truthy_bool : Truthy bool := λ b, b.
#[global] Instance truthy_string : Truthy string := λ s,
  match s with EmptyString => false | String _ _ => true end.
#[global] Instance truthy_list {A} : Truthy (list A) := λ l,
  match l with [] => false | _ :: _ => true end.
#[global] Instance truthy_client : Truthy ECSProtocol := λ _, true.
#[global] Instance truthy_option {A} `{Truthy A} : Truthy (option A) := λ o,
  match o with Some a => truthy a | None => false end.

(** ** The state and its monad *)

(** Modelled from the spec: [XCom] and [BaseOperator.xcom_pull]
    (airflow.models) are not among the sources. Section 4.5 and section 6
    give the correlation store as [put(key, value)], [get(key) -> value|absent]
    and [delete(key)]. A row is found by the workflow, the task id and the
    key it was written under, which is what [_xcom_set], [xcom_pull] and
    [_xcom_del] pass or filter on; all rows belong to the one run of the
    workflow the invocation is part of. [BaseOperator.xcom_pull] takes the
    context of the run as its first argument, which has no default. *)
Definition XComKey : Type := string * string * string.

Record state := mkState {
  self : ECSOperator;
  calls : list call;
  xcom : gmap XComKey string }.

Definition M (A : Type) : Type := state → result A * state.

Definition M_ret {A} (a : A) : M A := λ st, (Return a, st).

Definition M_bind {A B} (c : M A) (k : A → M B) : M B := λ st,
  match c st with
  | (Return a, st') => k a st'
  | (Raise e, st') => (Raise e, st')
  end.

Definition M_raise {A} (e : exn) : M A := λ st, (Raise e, st).

Definition lift {A} (r : result A) : M A := λ st, (r, st).

Definition get_self : M ECSOperator := λ st, (Return (self st), st).

Definition modify (f : state → state) : M unit := λ st, (Return (), f st).

Notation "'let*' x ':=' c 'in' k" := (M_bind c (λ x, k))
  (at level 10, x name, c at level 100, k at level 200).
Notation "c ';;;' k" := (M_bind c (λ _, k))
  (at level 100, k at level 200, right associativity).

Definition issue (c : call) : M unit :=
  modify (λ st, mkState (self st) (calls st ++ [c]) (xcom st)).

Definition assign_arn (a : option string) : M unit :=
  modify (λ st, mkState (set_arn a (self st)) (calls st) (xcom st)).

Definition assign_client (c : option ECSProtocol) : M unit :=
  modify (λ st, mkState (set_client c (self st)) (calls st) (xcom st)).

(** [self.client.<method>]: an attribute of [None] cannot be read. *)
Definition the_client (method : string) : M ECSProtocol :=
  let* o := get_self in
  match client o with
  | Some c => M_ret c
  | None => M_raise (AttributeError method)
  end.

(** ** The XCom side table *)

Record Context := mkContext { execution_date : string }.

Definition _xcom_set (context : Context) (key value task_id' : string) : M unit :=
  modify (λ st,
    mkState (self st) (calls st) (<[(dag_id (self st), task_id', key) := value]> (xcom st))).

(** [self.xcom_pull(context, task_ids=..., key=...)], and the same call
    with the context left out: the arguments are bound before anything is
    read, and a required argument that is missing raises [TypeError]. *)
Definition xcom_pull (context : option Context) (task_ids key : string)
    : M (option string) :=
  match context with
  | None => M_raise (TypeError "context")
  | Some _ => λ st, (Return (xcom st !! (dag_id (self st), task_ids, key)), st)
  end.

(** [session.query(XCom).filter(dag_id == ..., task_id == ...).delete()]:
    every row of the task id goes, whatever its key. *)
Definition _xcom_del (task_id' : string) : M unit :=
  modify (λ st,
    mkState (self st) (calls st)
      (filter (λ kv : XComKey * string,
                 ¬ (kv.1.1.1 = dag_id (self st) ∧ kv.1.1.2 = task_id')) (xcom st))).

(** ** _start_task *)

(** [if x is not None: run_opts[key] = x]. *)
Definition set_if_given {A} (key : string) (to_val : A → pyval) (x : option A)
    (run_opts : gmap string pyval) : gmap string pyval :=
  match x with
  | Some a => <[key := to_val a]> run_opts
  | None => run_opts
  end.

Definition tag_items (tags : list (string * string)) : pyval :=
  PList (map (λ kv, PDict [("key", PStr kv.1); ("value", PStr kv.2)]) tags).

(** Lines 248 to 273: the keyword arguments of the start request. *)
Definition build_run_opts (o : ECSOperator) : gmap string pyval :=
  let run_opts : gmap string pyval :=
    <["startedBy" := PStr (owner o)]>
      (<["overrides" := overrides o]>
         (<["taskDefinition" := PStr (task_definition o)]>
            (<["cluster" := PStr (cluster o)]> ∅))) in
  let run_opts :=
    if truthy (capacity_provider_strategy o) then
      <["platformVersion" := PStr (platform_version o)]>
        (<["capacityProviderStrategy" :=
             PList (default [] (capacity_provider_strategy o))]> run_opts)
    else if truthy (launch_type o) then
      let run_opts := <["launchType" := PStr (default EmptyString (launch_type o))]> run_opts in
      if bool_decide (launch_type o = Some "FARGATE") then
        <["platformVersion" := PStr (platform_version o)]> run_opts
      else run_opts
    else run_opts in
  let run_opts := set_if_given "group" PStr (group o) run_opts in
  let run_opts := set_if_given "placementConstraints" PList (placement_constraints o) run_opts in
  let run_opts := set_if_given "placementStrategy" PList (placement_strategy o) run_opts in
  let run_opts := set_if_given "networkConfiguration" id (network_configuration o) run_opts in
  let run_opts := set_if_given "tags" tag_items (tags o) run_opts in
  set_if_given "propagateTags" PStr (propagate_tags o) run_opts.

Definition _start_task (context : Context) : M unit :=
  let* o := get_self in
  let run_opts := build_run_opts o in
  let* c := the_client "run_task" in
  issue (CallRunTask run_opts);;;
  let response := run_task c run_opts in
  let* fs := lift (getitem (failures response) "failures") in
  if (0 <? length fs)%nat then M_raise (ECSOperatorError fs response)
  else
    let* ts := lift (getitem (tasks response) "tasks") in
    let* t := lift (first_item ts) in
    let* a := lift (getitem (taskArn t) "taskArn") in
    assign_arn (Some a);;;
    let* ecs_task_id := lift (last_item (Str.split "/" a)) in
    if reattach o then
      _xcom_set context REATTACH_XCOM_KEY a (REATTACH_XCOM_TASK_ID (task_id o))
    else M_ret ().

(** ** _try_reattach_task *)

(** [x in l] for a value that may be [None] and a list of strings. *)
Definition is_in (x : option string) (l : list string) : bool :=
  match x with
  | Some a => bool_decide (a ∈ l)
  | None => false
  end.

(** Line 314 is [self.xcom_pull(task_ids=..., key=...)]: no context is
    passed. *)
Definition _try_reattach_task : M unit :=
  let* o := get_self in
  let* c := the_client "describe_task_definition" in
  issue (CallDescribeTaskDefinition (task_definition o));;;
  let task_def_resp := describe_task_definition c (task_definition o) in
  let* td := lift (getitem (taskDefinition task_def_resp) "taskDefinition") in
  let* ecs_task_family := lift (getitem (family td) "family") in
  issue (CallListTasks (cluster o) "RUNNING" ecs_task_family);;;
  let list_tasks_resp := list_tasks c (cluster o) "RUNNING" ecs_task_family in
  let* running_tasks := lift (getitem (taskArns list_tasks_resp) "taskArns") in
  let* previous_task_arn :=
    xcom_pull None (REATTACH_XCOM_TASK_ID (task_id o)) REATTACH_XCOM_KEY in
  if is_in previous_task_arn running_tasks then assign_arn previous_task_arn
  else M_ret ().

(** ** Waiting, logs, evaluation, cancellation *)

(** [not self.client or not self.arn]. *)
Definition nothing_to_do (o : ECSOperator) : bool :=
  negb (truthy (client o)) || negb (truthy (arn o)).

Definition _wait_for_task_ended : M unit :=
  let* o := get_self in
  if nothing_to_do o then M_ret ()
  else issue (CallWait "tasks_stopped" (cluster o) [default EmptyString (arn o)]).

Definition _aws_logs_enabled (o : ECSOperator) : bool :=
  truthy (awslogs_group o) && truthy (awslogs_stream_prefix o).

(** The generator is run to its end by both of its consumers, so it is the
    list of what it yields. *)
Definition _cloudwatch_log_events (logs : AwsLogsHook) : M (list LogEvent) :=
  let* o := get_self in
  if _aws_logs_enabled o then
    match arn o with
    | None => M_raise (AttributeError "split")
    | Some a =>
        let* task_id := lift (last_item (Str.split "/" a)) in
        let stream_name := default EmptyString (awslogs_stream_prefix o) +:+ "/" +:+ task_id in
        issue (CallGetLogEvents (default EmptyString (awslogs_group o)) stream_name);;;
        M_ret (get_log_events logs (default EmptyString (awslogs_group o)) stream_name)
    end
  else M_ret [].

(** [deque(events, maxlen=1).pop()["message"]], [None] on [IndexError]. *)
Definition _last_log_message (logs : AwsLogsHook) : M (option string) :=
  let* events := _cloudwatch_log_events logs in
  match last events with
  | Some event => M_ret (Some (message event))
  | None => M_ret None
  end.

(** Lines 359 to 361: each event has its time stamp turned into a datetime
    and is then written to the log of the operator; a time stamp that has no
    datetime ends the loop, and the method, with the exception of the
    conversion. The events that follow are not looked at. *)
Fixpoint log_each_event (datetime : Datetime) (events : list LogEvent) : result unit :=
  match events with
  | [] => Return ()
  | event :: events' =>
      match fromtimestamp datetime (timestamp event) with
      | Some u => Raise (unrepresentable_exn u)
      | None => log_each_event datetime events'
      end
  end.

(** The log events are fetched and gone through before the response is
    looked at. *)
Definition _check_success_task (datetime : Datetime) (logs : AwsLogsHook) : M unit :=
  let* o := get_self in
  if nothing_to_do o then M_ret ()
  else
    let* c := the_client "describe_tasks" in
    issue (CallDescribeTasks (cluster o) [default EmptyString (arn o)]);;;
    let response := describe_tasks c (cluster o) [default EmptyString (arn o)] in
    let* events := _cloudwatch_log_events logs in
    lift (log_each_event datetime events);;;
    lift (check_response response).

Definition on_kill : M unit :=
  let* o := get_self in
  if nothing_to_do o then M_ret ()
  else
    let* c := the_client "stop_task" in
    issue (CallStopTask (cluster o) (default EmptyString (arn o)) "Task killed by the user").

(** ** execute *)

(** Lines 222 to 226: reattach when asked to, start when no task was adopted. *)
Definition start_or_reattach (context : Context) : M unit :=
  (let* o := get_self in
   if truthy (reattach o) then _try_reattach_task else M_ret ());;;
  let* o := get_self in
  if negb (truthy (arn o)) then _start_task context else M_ret ().

(** [conn] is what [self.get_hook().get_conn()] returns. *)
Definition execute (conn : ECSProtocol) (datetime : Datetime) (logs : AwsLogsHook)
    (context : Context) : M (option string) :=
  assign_client (Some conn);;;
  start_or_reattach context;;;
  _wait_for_task_ended;;;
  _check_success_task datetime logs;;;
  (let* o := get_self in
   if truthy (reattach o) then _xcom_del (REATTACH_XCOM_TASK_ID (task_id o))
   else M_ret ());;;
  let* o := get_self in
  if truthy (do_xcom_push o) then _last_log_message logs else M_ret None.

(** ** The specification's reading of the outcome and of the last message *)

Inductive FailureKind :=
| ServiceReportedFailure
| HostTerminated
| ContainerNonZeroExit
| ContainerStillPending
| ContainerLaunchError.

Inductive Verdict :=
| Success
| Failure (kind : FailureKind).

(** The three container checks of section 4.3, in the order given there. *)
Definition nonzero_exit (c : Container.t) : bool :=
  bool_decide (Container.lastStatus c = Some "STOPPED") &&
  match Container.exitCode c with
  | Some code => negb (code =? 0)
  | None => false
  end.

Definition still_pending (c : Container.t) : bool :=
  bool_decide (Container.lastStatus c = Some "PENDING").

Definition launch_error (c : Container.t) : bool :=
  Str.contains "error" (Str.lower (default EmptyString (Container.reason c))).

Definition container_verdict (c : Container.t) : Verdict :=
  if nonzero_exit c then Failure ContainerNonZeroExit
  else if still_pending c then Failure ContainerStillPending
  else if launch_error c then Failure ContainerLaunchError
  else Success.

Fixpoint containers_verdict (cs : list Container.t) : Verdict :=
  match cs with
  | [] => Success
  | c :: cs' =>
      match container_verdict c with
      | Success => containers_verdict cs'
      | v => v
      end
  end.

(** Section 4.3 on a description made of a failures list, a stop reason and
    the containers. *)
Definition first_positive_match (fs : list Failure.t) (stop : option string)
    (cs : list Container.t) : Verdict :=
  match fs with
  | _ :: _ => Failure ServiceReportedFailure
  | [] =>
      if re_match_host (default EmptyString stop) then Failure HostTerminated
      else containers_verdict cs
  end.

(** The verdict an outcome of the evaluation stands for; an exception that
    is no [AirflowException] stands for none. *)
Definition verdict_of (r : result unit) : option Verdict :=
  match r with
  | Return _ => Some Success
  | Raise (AirflowException (MsgResponse _)) => Some (Failure ServiceReportedFailure)
  | Raise (AirflowException (MsgHostTerminated _)) => Some (Failure HostTerminated)
  | Raise (AirflowException (MsgNotInSuccessState _)) => Some (Failure ContainerNonZeroExit)
  | Raise (AirflowException (MsgStillPending _)) => Some (Failure ContainerStillPending)
  | Raise (AirflowException (MsgLaunchError _)) => Some (Failure ContainerLaunchError)
  | Raise _ => None
  end.

(** Section 4.4: the stream is [{streamPrefix}/{last path component of the
    task identifier}], and the last message is that of the final event. *)
Definition last_path_component (a : string) : string :=
  default EmptyString (last (Str.split "/" a)).

Definition log_stream_name (o : ECSOperator) (a : string) : string :=
  default EmptyString (awslogs_stream_prefix o) +:+ "/" +:+ last_path_component a.

Definition final_message (logs : AwsLogsHook) (o : ECSOperator) (a : string)
    : option string :=
  message <$> last (get_log_events logs (default EmptyString (awslogs_group o))
                      (log_stream_name o a)).

(** ** Notions used in the statements *)

(** The entry of the XCom table the operator keeps its task under. *)
Definition reattach_key (o : ECSOperator) : XComKey :=
  (dag_id o, REATTACH_XCOM_TASK_ID (task_id o), REATTACH_XCOM_KEY).

(** The state after line 220, [self.client = self.get_hook().get_conn()]. *)
Definition connected (conn : ECSProtocol) (st : state) : state :=
  mkState (set_client (Some conn) (self st)) (calls st) (xcom st).

(** The state once the start request has been issued. *)
Definition started (o : ECSOperator) (st : state) : state :=
  mkState o (calls st ++ [CallRunTask (build_run_opts o)]) (xcom st).

(** The two requests of [_try_reattach_task]. *)
Definition looked_up (o : ECSOperator) (fam : string) : list call :=
  [CallDescribeTaskDefinition (task_definition o);
   CallListTasks (cluster o) "RUNNING" fam].

(** The request [_cloudwatch_log_events] makes, if any. *)
Definition log_calls (o : ECSOperator) : list call :=
  if _aws_logs_enabled o then
    match arn o with
    | Some a => [CallGetLogEvents (default EmptyString (awslogs_group o)) (log_stream_name o a)]
    | None => []
    end
  else [].

(** The events [_cloudwatch_log_events] yields. *)
Definition fetched (logs : AwsLogsHook) (o : ECSOperator) : list LogEvent :=
  if _aws_logs_enabled o then
    match arn o with
    | Some a =>
        get_log_events logs (default EmptyString (awslogs_group o)) (log_stream_name o a)
    | None => []
    end
  else [].

(** How [_check_success_task] ends once the task is described: the loop
    over the events first, the evaluation of the response next. *)
Definition evaluated (datetime : Datetime) (logs : AwsLogsHook) (o : ECSOperator)
    (response : Response) : result unit :=
  let+ _ := log_each_event datetime (fetched logs o) in
  check_response response.

(** What [execute] does after [start_or_reattach], lines 228 to 242. *)
Definition finish (datetime : Datetime) (logs : AwsLogsHook) : M (option string) :=
  _wait_for_task_ended;;;
  _check_success_task datetime logs;;;
  (let* o := get_self in
   if truthy (reattach o) then _xcom_del (REATTACH_XCOM_TASK_ID (task_id o))
   else M_ret ());;;
  let* o := get_self in
  if truthy (do_xcom_push o) then _last_log_message logs else M_ret None.

(** The XCom table a successful [finish] leaves. *)
Definition after_success (st : state) : gmap XComKey string :=
  if reattach (self st) then
    filter (λ kv : XComKey * string,
              ¬ (kv.1.1.1 = dag_id (self st) ∧
                 kv.1.1.2 = REATTACH_XCOM_TASK_ID (task_id (self st)))) (xcom st)
  else xcom st.

(** Section 4.1, output on success: the last message of the stream of the
    task, nothing when logs are not configured. *)
Definition expected_message (logs : AwsLogsHook) (o : ECSOperator) : option string :=
  if _aws_logs_enabled o then
    match arn o with
    | Some a => final_message logs o a
    | None => None
    end
  else None.

(** Section 4.2: a failure whose reason carries a resource-quota marker. *)
Definition quota_marked (f : Failure.t) : Prop :=
  ∃ r, Failure.reason f = Some r ∧
       (Str.contains "RESOURCE:MEMORY" r = true ∨ Str.contains "RESOURCE:CPU" r = true).

(** A container whose exit code can be read when the evaluation asks for it. *)
Definition exit_code_known (c : Container.t) : Prop :=
  Container.lastStatus c = Some "STOPPED" → is_Some (Container.exitCode c).

(** ** Fixtures *)

Module Fixture.

Definition task_arn : string := "arn:aws:ecs:us-east-1:012345678910:task/d8c67b3c".

Definition operator : ECSOperator :=
  __init__ "task" "dag" "airflow" true "t" "c" (PDict [])
    None (Some "eu-west-1") (Some "EC2") None None None None "LATEST" None None
    (Some "/ecs/t") None (Some "ecs/app") None None true.

Definition exited (code : Z) : Container.t :=
  Container.mk (Some "app") (Some "STOPPED") (Some code) None.

(** A container whose image could not be pulled: stopped, never started,
    so without an exit code. *)
Definition never_started : Container.t :=
  Container.mk (Some "app") (Some "STOPPED") None
    (Some "CannotPullContainerError: pull access denied").

Definition described (cs : list Container.t) : Response :=
  mkResponse (Some []) (Some [mkTask (Some task_arn) (Some "Essential container in task exited") (Some cs)]).

(** A service that starts [task_arn], lists [running] as running and
    describes the stopped task with the containers [cs]. *)
Definition service (running : list string) (cs : list Container.t) : ECSProtocol := {|
  run_task := λ _, mkResponse (Some []) (Some [mkTask (Some task_arn) None None]);
  describe_tasks := λ _ _, described cs;
  stop_task := λ _ _ _, PDict [];
  describe_task_definition := λ _, mkDTDR (Some (mkTaskDefinition (Some "fam")));
  list_tasks := λ _ _ _, mkLTR (Some running) |}.

(** A service that refuses to start the task for want of CPU. *)
Definition refusing : ECSProtocol := {|
  run_task := λ _,
    mkResponse (Some [Failure.mk (Some "arn:aws:ecs:instance/1") (Some "RESOURCE:CPU") None])
      (Some []);
  describe_tasks := λ _ _, mkResponse (Some []) (Some []);
  stop_task := λ _ _ _, PDict [];
  describe_task_definition := λ _, mkDTDR (Some (mkTaskDefinition (Some "fam")));
  list_tasks := λ _ _ _, mkLTR (Some []) |}.

Definition logs : AwsLogsHook :=
  mkLogs (λ g s,
    if bool_decide (g = "/ecs/t" ∧ s = "ecs/app/d8c67b3c")
    then [mkLogEvent 1 "starting"; mkLogEvent 2 "done"] else []).

(** A platform on UTC that has the datetimes of the years 1 to 9999. *)
Definition utc : Datetime :=
  mkDatetime (λ ms,
    if (-62135596800000 <=? ms) && (ms <? 253402300800000) then None
    else Some YearOutOfRange).

Definition context : Context := mkContext "2021-01-01T00:00:00".

(** The operator without reattachment. *)
Definition plain : ECSOperator :=
  __init__ "task" "dag" "airflow" true "t" "c" (PDict [])
    None (Some "eu-west-1") (Some "EC2") None None None None "LATEST" None None
    (Some "/ecs/t") None (Some "ecs/app") None None false.

Definition fresh (o : ECSOperator) : state := mkState o [] ∅.

(** An earlier try of the same unit of work left its task in the table. *)
Definition stored : state :=
  mkState operator [] {[ reattach_key operator := task_arn ]}.

(** The operator while it supervises [task_arn] through [conn]. *)
Definition supervising (conn : ECSProtocol) : state :=
  mkState (set_arn (Some task_arn) (set_client (Some conn) operator)) [] ∅.

Definition quiet (o : ECSOperator) : ECSOperator :=
  mkOperator (task_id o) (dag_id o) (owner o) false (aws_conn_id o)
    (region_name o) (task_definition o) (cluster o) (overrides o) (launch_type o)
    (capacity_provider_strategy o) (group o) (placement_constraints o)
    (placement_strategy o) (platform_version o) (network_configuration o) (tags o)
    (awslogs_group o) (awslogs_stream_prefix o) (awslogs_region o)
    (propagate_tags o) (reattach o) (client o) (arn o) (retry_args o).

End Fixture.

(** ** Further notions: the evaluation, the requests, the keys *)

(** A container the evaluation passes over. *)
Definition container_ok (c : Container.t) : Prop :=
  (Container.lastStatus c = Some "STOPPED" → Container.exitCode c = Some 0) ∧
  Container.lastStatus c ≠ Some "PENDING" ∧
  Str.contains "error" (Str.lower (default EmptyString (Container.reason c))) = false.

(** A task the evaluation passes over. *)
Definition task_ok (t : Task) : Prop :=
  re_match_host (default EmptyString (stoppedReason t)) = false ∧
  ∃ cs, containers t = Some cs ∧ Forall container_ok cs.

(** The first positive match over all the tasks of a response, each task
    with its stop reason first and its containers next. *)
Definition task_verdict (t : Task) : Verdict :=
  if re_match_host (default EmptyString (stoppedReason t)) then Failure HostTerminated
  else containers_verdict (default [] (containers t)).

Fixpoint tasks_verdict (ts : list Task) : Verdict :=
  match ts with
  | [] => Success
  | t :: ts' =>
      match task_verdict t with
      | Success => tasks_verdict ts'
      | v => v
      end
  end.

Definition response_verdict (response : Response) : Verdict :=
  match default [] (failures response) with
  | _ :: _ => Failure ServiceReportedFailure
  | [] => tasks_verdict (default [] (tasks response))
  end.

(** A task whose containers can all be read. *)
Definition readable (t : Task) : Prop :=
  ∃ cs, containers t = Some cs ∧ Forall exit_code_known cs.

(** What an exception of the evaluation says about the response. *)
Definition justified (response : Response) (e : exn) : Prop :=
  match e with
  | AirflowException (MsgResponse r) =>
      r = response ∧ default [] (failures response) ≠ []
  | AirflowException (MsgHostTerminated s) =>
      ∃ t, t ∈ default [] (tasks response) ∧ stoppedReason t = Some s ∧
           re_match_host s = true
  | AirflowException (MsgNotInSuccessState t) =>
      t ∈ default [] (tasks response) ∧
      ∃ c code, c ∈ default [] (containers t) ∧
                Container.lastStatus c = Some "STOPPED" ∧
                Container.exitCode c = Some code ∧ code ≠ 0
  | AirflowException (MsgStillPending t) =>
      t ∈ default [] (tasks response) ∧
      ∃ c, c ∈ default [] (containers t) ∧ Container.lastStatus c = Some "PENDING"
  | AirflowException (MsgLaunchError s) =>
      ∃ t c r, t ∈ default [] (tasks response) ∧ c ∈ default [] (containers t) ∧
               Container.reason c = Some r ∧ s = Str.lower r ∧
               Str.contains "error" s = true
  | KeyError k =>
      (k = "tasks" ∧ tasks response = None) ∨
      (k = "containers" ∧ ∃ t, t ∈ default [] (tasks response) ∧ containers t = None) ∨
      (k = "exitCode" ∧
       ∃ t c, t ∈ default [] (tasks response) ∧ c ∈ default [] (containers t) ∧
              Container.lastStatus c = Some "STOPPED" ∧ Container.exitCode c = None)
  | _ => False
  end.


(** The requests of a run that waits for [a] and evaluates it. *)
Definition supervised (o : ECSOperator) (a : string) : list call :=
  [CallWait "tasks_stopped" (cluster o) [a]; CallDescribeTasks (cluster o) [a]]
  ++ log_calls o.

(** The keys the methods of [execute] read with [d[k]]; the last two are
    those of a log event. *)
Definition indexed_keys : list string :=
  ["taskDefinition"; "family"; "taskArns"; "failures"; "tasks"; "taskArn";
   "containers"; "exitCode"; "timestamp"; "message"].

(** The keyword arguments a start request can carry. *)
Definition known_keys : list string :=
  ["cluster"; "taskDefinition"; "overrides"; "startedBy";
   "capacityProviderStrategy"; "platformVersion"; "launchType";
   "group"; "placementConstraints"; "placementStrategy";
   "networkConfiguration"; "tags"; "propagateTags"].

(** An entry the scan for a marker goes past: it has a reason, without the
    marker. *)
Definition passed_over (quota_reason : string) (failure : Failure.t) : Prop :=
  ∃ r, Failure.reason failure = Some r ∧ Str.contains quota_reason r = false.

(** A first entry without a reason, with only entries the scan goes past
    before it. *)
Definition stumbles (quota_reason : string) (fs : list Failure.t) : Prop :=
  ∃ pre failure post,
    fs = pre ++ failure :: post ∧ Failure.reason failure = None ∧
    Forall (passed_over quota_reason) pre.

Module Sample.

(** Two tasks in one response: the first ran to its end, the second lost its
    host while its container exited with code 1. *)
Definition two_tasks : list Task :=
  [mkTask None None (Some [Fixture.exited 0]);
   mkTask None (Some "Host EC2 (instance i-1) stopped.") (Some [Fixture.exited 1])].

End Sample.

(** * Properties *)

(** ** Strings and the pattern *)

Lemma is_prefix_spec (p s : string) :
  Str.is_prefix p s = true ↔ ∃ t, s = p +:+ t.
Proof.
  revert s. induction p as [|a p IH]; intros s; simpl.
  - split; [intros _; by exists s | done].
  - destruct s as [|b s].
    + split; [done | intros [t Ht]; discriminate].
    + rewrite andb_true_iff, IH, Ascii.eqb_eq. split.
      * intros [-> [t ->]]. by exists t.
      * intros [t Ht]. injection Ht as -> ->. eauto.
Qed.

Lemma strip_prefix_spec (p s rest : string) :
  Str.strip_prefix p s = Some rest ↔ s = p +:+ rest.
Proof.
  revert s. induction p as [|a p IH]; intros s; simpl.
  - split; [by intros [= ->] | by intros ->].
  - destruct s as [|b s]; [done|].
    destruct (Ascii.eqb_spec a b) as [->|Hne].
    + rewrite IH. split; [by intros -> | by intros [= ->]].
    + split; [done | intros [= ? ?]; congruence].
Qed.

Lemma contains_spec (needle hay : string) :
  Str.contains needle hay = true ↔ ∃ pre post, hay = pre +:+ needle +:+ post.
Proof.
  induction hay as [|c hay IH]; simpl.
  - rewrite orb_false_r, is_prefix_spec. split.
    + intros [t Ht]. by exists EmptyString, t.
    + intros (pre & post & H). destruct pre; [by exists post | discriminate].
  - rewrite orb_true_iff, is_prefix_spec, IH. split.
    + intros [[t Ht] | (pre & post & H)].
      * by exists EmptyString, t.
      * exists (String c pre), post. simpl. by rewrite H.
    + intros (pre & post & H). destruct pre as [|d pre]; simpl in H.
      * left. by exists post.
      * right. exists pre, post. by injection H.
Qed.

Lemma split_not_nil (sep : ascii) (s : string) : Str.split sep s ≠ [].
Proof.
  induction s as [|c s IH]; simpl; [done|].
  destruct (Ascii.eqb c sep); [done|]. by destruct (Str.split sep s).
Qed.

(** [s.split(sep)[-1]] never raises. *)
Lemma last_item_split (sep : ascii) (s : string) :
  last_item (Str.split sep s) = Return (default EmptyString (last (Str.split sep s))).
Proof.
  unfold last_item. destruct (last (Str.split sep s)) eqn:E; [done|].
  apply last_None in E. by apply split_not_nil in E.
Qed.

Lemma split_join (sep : ascii) (s : string) : Str.join sep (Str.split sep s) = s.
Proof.
  induction s as [|c s IH]; simpl; [done|].
  pose proof (split_not_nil sep s) as Hnn.
  destruct (Ascii.eqb_spec c sep) as [->|Hne].
  - destruct (Str.split sep s) as [|h t]; [done|]. simpl in *. by rewrite IH.
  - destruct (Str.split sep s) as [|h t]; [done|].
    destruct t as [|h' t]; simpl in *; by rewrite <- IH.
Qed.

Lemma contains_char_cons (a c : ascii) (x : string) :
  Str.contains (String a EmptyString) (String c x) =
  Ascii.eqb a c || Str.contains (String a EmptyString) x.
Proof.
  cbn [Str.contains Str.is_prefix]. destruct x; by rewrite andb_true_r.
Qed.

Lemma split_no_sep (sep : ascii) (s : string) :
  Forall (λ x, Str.contains (String sep EmptyString) x = false) (Str.split sep s).
Proof.
  induction s as [|c s IH]; simpl.
  - by repeat constructor.
  - destruct (Ascii.eqb_spec c sep) as [->|Hne].
    + by constructor.
    + pose proof (split_not_nil sep s) as Hnn.
      destruct (Str.split sep s) as [|h t]; [done|].
      apply Forall_cons in IH as [Hh Ht]. constructor; [|done].
      rewrite contains_char_cons, Hh, orb_false_r.
      destruct (Ascii.eqb_spec sep c); [congruence | done].
Qed.

Lemma re_closing_spec (s : string) :
  re_closing s = true ↔
  ∃ w rest, s = ") " +:+ w +:+ "." +:+ rest ∧ (w = "stopped" ∨ w = "terminated").
Proof.
  unfold re_closing. rewrite orb_true_iff, !is_prefix_spec. split.
  - intros [[t ->] | [t ->]]; [exists "stopped", t | exists "terminated", t]; auto.
  - intros (w & rest & -> & [-> | ->]); [left | right]; by exists rest.
Qed.

Lemma re_instance_spec (s : string) :
  re_instance s = true ↔
  ∃ x tail, s = x +:+ tail ∧ x ≠ EmptyString ∧
            Str.contains (String newline EmptyString) x = false ∧ re_closing tail = true.
Proof.
  induction s as [|c s IH]; cbn [re_instance].
  - split; [done|]. intros (x & tail & H & Hx & _). by destruct x.
  - destruct (Ascii.eqb_spec c newline) as [->|Hne].
    + split; [done|]. intros ([|d x] & tail & H & Hx & Hnl & _); [done|].
      simpl in H. injection H as <- _.
      by rewrite contains_char_cons, Ascii.eqb_refl in Hnl.
    + assert ((newline =? c)%char = false) as Hcn
        by (destruct (Ascii.eqb_spec newline c); [congruence | done]).
      rewrite orb_true_iff, IH. split.
      * intros [Hc | (x & tail & -> & Hx & Hnl & Hc)].
        -- exists (String c EmptyString), s. by rewrite contains_char_cons, Hcn.
        -- exists (String c x), tail. by rewrite contains_char_cons, Hcn, Hnl.
      * intros ([|d x] & tail & H & Hx & Hnl & Hc); [done|].
        simpl in H. injection H as <- ->.
        rewrite contains_char_cons, Hcn in Hnl.
        destruct x as [|e x]; [by left|]. right.
        by exists (String e x), tail.
Qed.

(** What [re.match] of the pattern accepts. *)
Lemma re_match_host_spec (s : string) :
  re_match_host s = true ↔
  ∃ x w rest,
    s = "Host EC2 (instance " +:+ x +:+ ") " +:+ w +:+ "." +:+ rest ∧
    x ≠ EmptyString ∧ Str.contains (String newline EmptyString) x = false ∧
    (w = "stopped" ∨ w = "terminated").
Proof.
  unfold re_match_host. split.
  - destruct (Str.strip_prefix _ s) as [r|] eqn:E; [|done].
    apply strip_prefix_spec in E as ->.
    intros (x & tail & -> & Hx & Hnl & (w & rest & -> & Hw)%re_closing_spec)%re_instance_spec.
    by exists x, w, rest.
  - intros (x & w & rest & -> & Hx & Hnl & Hw).
    assert (Str.strip_prefix "Host EC2 (instance "
              ("Host EC2 (instance " +:+ x +:+ ") " +:+ w +:+ "." +:+ rest)
            = Some (x +:+ ") " +:+ w +:+ "." +:+ rest)) as ->
      by by apply strip_prefix_spec.
    apply re_instance_spec. exists x, (") " +:+ w +:+ "." +:+ rest).
    repeat split; [done..|]. apply re_closing_spec. by exists w, rest.
Qed.

(** ** Guards *)

Lemma nothing_to_do_false (o : ECSOperator) :
  nothing_to_do o = false ↔ ∃ c a, client o = Some c ∧ arn o = Some a ∧ a ≠ EmptyString.
Proof.
  unfold nothing_to_do. rewrite orb_false_iff, !negb_false_iff. split.
  - intros [Hc Ha]. destruct (client o) as [c|]; [|done].
    destruct (arn o) as [[|x a]|]; [done| |done]. by exists c, (String x a).
  - intros (c & a & -> & -> & Ha). by destruct a.
Qed.

Lemma nothing_to_do_true (o : ECSOperator) :
  nothing_to_do o = true ↔ client o = None ∨ truthy (arn o) = false.
Proof.
  unfold nothing_to_do. rewrite orb_true_iff, !negb_true_iff.
  destruct (client o); split; intros [?|?]; auto; done.
Qed.

(** C10: without a client or without a task handle, waiting, evaluating and
    cancelling return at once: no request is issued to the service or to the
    log backend, and the operator and the XCom table are as before. In
    particular a cancellation before any task was started stops nothing. *)
Theorem no_handle_no_effect (datetime : Datetime) (logs : AwsLogsHook) (st : state) :
  client (self st) = None ∨ truthy (arn (self st)) = false →
  _wait_for_task_ended st = (Return (), st) ∧
  _check_success_task datetime logs st = (Return (), st) ∧
  on_kill st = (Return (), st).
Proof.
  intros H%nothing_to_do_true.
  unfold _wait_for_task_ended, _check_success_task, on_kill, M_bind, get_self.
  by rewrite H.
Qed.

(** C8: with a client and a task handle, cancelling issues exactly one
    request, [stop_task] for that handle on the cluster of the operator with
    the reason 'Task killed by the user', and returns; nothing waits for the
    task to stop. *)
Theorem on_kill_stops_once (st : state) (c : ECSProtocol) (a : string) :
  client (self st) = Some c → arn (self st) = Some a → a ≠ EmptyString →
  on_kill st =
    (Return (),
     mkState (self st)
       (calls st ++ [CallStopTask (cluster (self st)) a "Task killed by the user"])
       (xcom st)).
Proof.
  intros Hc Ha Hne.
  assert (nothing_to_do (self st) = false) as Hn
    by (apply nothing_to_do_false; eauto).
  unfold on_kill, M_bind, get_self, the_client, M_bind, get_self.
  rewrite Hn, Hc, Ha. done.
Qed.

(** ** The start request *)

(** [_start_task] in closed form. *)
Lemma start_task_run (context : Context) (st : state) (c : ECSProtocol) :
  client (self st) = Some c →
  let o := self st in
  let response := run_task c (build_run_opts o) in
  _start_task context st =
    match failures response with
    | None => (Raise (KeyError "failures"), started o st)
    | Some (f :: fs) => (Raise (ECSOperatorError (f :: fs) response), started o st)
    | Some [] =>
        match tasks response with
        | None => (Raise (KeyError "tasks"), started o st)
        | Some [] => (Raise IndexError, started o st)
        | Some (t :: _) =>
            match taskArn t with
            | None => (Raise (KeyError "taskArn"), started o st)
            | Some a =>
                (Return (),
                 mkState (set_arn (Some a) o) (calls (started o st))
                   (if reattach o then <[reattach_key o := a]> (xcom st)
                    else xcom st))
            end
        end
    end.
Proof.
  intros Hc. cbv zeta.
  unfold _start_task, M_bind, get_self, the_client, M_bind, get_self, issue, modify, lift.
  rewrite Hc. cbn.
  destruct (failures (run_task c _)) as [[|f fs]|]; cbn; [|done..].
  destruct (tasks (run_task c _)) as [[|t ts]|]; cbn; [done| |done].
  destruct (taskArn t) as [a|]; cbn; [|done].
  rewrite last_item_split.
  by destruct (reattach (self st)).
Qed.

(** ** Reattaching *)

(** [_try_reattach_task] in closed form, when the service names the family
    and lists the running tasks: the look-up in the XCom table raises. *)
Lemma try_reattach_run (st : state) (c : ECSProtocol) (td : TaskDefinition)
    (fam : string) (running : list string) :
  client (self st) = Some c →
  taskDefinition (describe_task_definition c (task_definition (self st))) = Some td →
  family td = Some fam →
  taskArns (list_tasks c (cluster (self st)) "RUNNING" fam) = Some running →
  _try_reattach_task st =
    (Raise (TypeError "context"),
     mkState (self st) (calls st ++ looked_up (self st) fam) (xcom st)).
Proof.
  intros Hc Htd Hfam Hrun.
  unfold _try_reattach_task, M_bind, get_self, the_client, M_bind, get_self,
    issue, modify, lift, xcom_pull, M_raise, looked_up.
  rewrite Hc. cbn. rewrite Htd. cbn. rewrite Hfam. cbn. rewrite Hrun. cbn.
  by rewrite <- app_assoc.
Qed.

(** ** Waiting, logs and evaluation in closed form *)

Lemma wait_run (st : state) :
  _wait_for_task_ended st =
    (Return (),
     if nothing_to_do (self st) then st
     else mkState (self st)
            (calls st ++ [CallWait "tasks_stopped" (cluster (self st))
                            [default EmptyString (arn (self st))]])
            (xcom st)).
Proof.
  unfold _wait_for_task_ended, M_bind, get_self.
  by destruct (nothing_to_do (self st)).
Qed.

Lemma cloudwatch_run (logs : AwsLogsHook) (st : state) (a : string) :
  arn (self st) = Some a →
  _cloudwatch_log_events logs st =
    (Return (if _aws_logs_enabled (self st)
             then get_log_events logs (default EmptyString (awslogs_group (self st)))
                    (log_stream_name (self st) a)
             else []),
     mkState (self st) (calls st ++ log_calls (self st)) (xcom st)).
Proof.
  intros Ha.
  unfold _cloudwatch_log_events, log_calls, M_bind, get_self, lift, issue, modify.
  destruct (_aws_logs_enabled (self st)); cbn.
  - rewrite Ha, last_item_split. done.
  - rewrite app_nil_r. by destruct st.
Qed.

Lemma cloudwatch_disabled (logs : AwsLogsHook) (st : state) :
  _aws_logs_enabled (self st) = false →
  _cloudwatch_log_events logs st = (Return [], st).
Proof.
  intros H. unfold _cloudwatch_log_events, M_bind, get_self. by rewrite H.
Qed.

Lemma last_log_message_run (logs : AwsLogsHook) (st : state) (a : string) :
  arn (self st) = Some a →
  _last_log_message logs st =
    (Return (if _aws_logs_enabled (self st) then final_message logs (self st) a
             else None),
     mkState (self st) (calls st ++ log_calls (self st)) (xcom st)).
Proof.
  intros Ha. unfold _last_log_message, M_bind.
  rewrite (cloudwatch_run _ _ _ Ha). unfold final_message.
  destruct (_aws_logs_enabled (self st)); [|done].
  by destruct (last _).
Qed.

Lemma last_log_message_disabled (logs : AwsLogsHook) (st : state) :
  _aws_logs_enabled (self st) = false →
  _last_log_message logs st = (Return None, st).
Proof.
  intros H. unfold _last_log_message, M_bind. by rewrite cloudwatch_disabled.
Qed.

Lemma check_success_run (datetime : Datetime) (logs : AwsLogsHook) (st : state)
    (c : ECSProtocol) (a : string) :
  client (self st) = Some c → arn (self st) = Some a → a ≠ EmptyString →
  _check_success_task datetime logs st =
    (evaluated datetime logs (self st) (describe_tasks c (cluster (self st)) [a]),
     mkState (self st)
       (calls st ++ CallDescribeTasks (cluster (self st)) [a] :: log_calls (self st))
       (xcom st)).
Proof.
  intros Hc Ha Hne.
  assert (nothing_to_do (self st) = false) as Hn
    by (apply nothing_to_do_false; eauto).
  unfold _check_success_task, M_bind at 1, get_self at 1. rewrite Hn.
  unfold M_bind at 1, the_client, M_bind at 1, get_self. rewrite Hc. cbn [M_ret].
  unfold M_bind at 1, issue, modify. unfold M_bind at 1.
  rewrite cloudwatch_run with (a := a) by done. cbn [self calls xcom].
  unfold evaluated, fetched, M_bind, lift. rewrite Ha. cbn [default].
  rewrite <- app_assoc. cbn [app].
  destruct (_aws_logs_enabled (self st));
    by destruct (log_each_event datetime _) as [[]|e].
Qed.

(** ** The fields of the start request *)

Lemma set_if_given_ne {A} (key k : string) (f : A → pyval) (x : option A)
    (m : gmap string pyval) :
  key ≠ k → set_if_given key f x m !! k = m !! k.
Proof. intros Hne. destruct x; cbn; [by rewrite lookup_insert_ne | done]. Qed.

(** The optional arguments leave the launch fields alone. *)
Lemma build_run_opts_launch_fields (o : ECSOperator) (k : string) :
  k = "capacityProviderStrategy" ∨ k = "platformVersion" ∨ k = "launchType" →
  build_run_opts o !! k =
    (if truthy (capacity_provider_strategy o) then
       <["platformVersion" := PStr (platform_version o)]>
         (<["capacityProviderStrategy" :=
              PList (default [] (capacity_provider_strategy o))]> ∅)
     else if truthy (launch_type o) then
       if bool_decide (launch_type o = Some "FARGATE") then
         <["platformVersion" := PStr (platform_version o)]>
           (<["launchType" := PStr (default EmptyString (launch_type o))]> ∅)
       else <["launchType" := PStr (default EmptyString (launch_type o))]> ∅
     else (∅ : gmap string pyval)) !! k.
Proof.
  intros Hk. unfold build_run_opts.
  rewrite !set_if_given_ne by (intros <-; by destruct Hk as [?|[?|?]]).
  destruct Hk as [-> | [-> | ->] ];
    destruct (truthy (capacity_provider_strategy o));
    destruct (truthy (launch_type o));
    try destruct (bool_decide (launch_type o = Some "FARGATE"));
    by simplify_map_eq.
Qed.

(** C3: the start request [_start_task] issues carries the capacity-provider
    strategy and a platform version and no launch type when a strategy is
    set; with only a launch type it carries the launch type, and a platform
    version exactly when the launch type is 'FARGATE'. *)
Theorem start_request_launch_fields (context : Context) (st : state)
    (c : ECSProtocol) :
  client (self st) = Some c →
  ∃ run_opts,
    calls (_start_task context st).2 = calls st ++ [CallRunTask run_opts] ∧
    (∀ strategy,
        capacity_provider_strategy (self st) = Some strategy → strategy ≠ [] →
        run_opts !! "capacityProviderStrategy" = Some (PList strategy) ∧
        run_opts !! "platformVersion" = Some (PStr (platform_version (self st))) ∧
        run_opts !! "launchType" = None) ∧
    (∀ lt,
        truthy (capacity_provider_strategy (self st)) = false →
        launch_type (self st) = Some lt → lt ≠ EmptyString →
        run_opts !! "launchType" = Some (PStr lt) ∧
        run_opts !! "capacityProviderStrategy" = None ∧
        (is_Some (run_opts !! "platformVersion") ↔ lt = "FARGATE")).
Proof.
  intros Hc. exists (build_run_opts (self st)). split; [|split].
  - rewrite (start_task_run _ _ _ Hc).
    destruct (failures _) as [[|f fs]|]; [|done..].
    destruct (tasks _) as [[|t ts]|]; [done| |done].
    by destruct (taskArn t).
  - intros strategy Hs Hne.
    rewrite !build_run_opts_launch_fields by auto.
    rewrite Hs. destruct strategy; [done|]. cbn. by simplify_map_eq.
  - intros lt Hs Hlt Hne.
    rewrite !build_run_opts_launch_fields by auto.
    rewrite Hs, Hlt. destruct lt as [|x lt]; [done|]. cbn.
    case_bool_decide as Hf.
    + injection Hf as Hf. rewrite Hf. by simplify_map_eq.
    + simplify_map_eq. repeat split; [by intros [? ?]|].
      intros Hf'. by rewrite Hf' in Hf.
Qed.

(** ** should_retry *)

Lemma any_reason_true (q : string) (fs : list Failure.t) :
  any_reason q fs = Return true →
  ∃ f r, f ∈ fs ∧ Failure.reason f = Some r ∧ Str.contains q r = true.
Proof.
  induction fs as [|f fs IH]; cbn; [done|].
  destruct (Failure.reason f) as [r|] eqn:Er; cbn; [|done].
  destruct (Str.contains q r) eqn:Ec.
  - intros _. exists f, r. split; [apply elem_of_cons; by left | done].
  - intros (f' & r' & Hin & H)%IH. exists f', r'.
    split; [apply elem_of_cons; by right | done].
Qed.

Lemma any_reason_total (q : string) (fs : list Failure.t) :
  Forall (λ f, is_Some (Failure.reason f)) fs →
  any_reason q fs =
    Return (existsb (λ f, Str.contains q (default EmptyString (Failure.reason f))) fs).
Proof.
  induction 1 as [|f fs [r Hr] _ IH]; cbn; [done|].
  rewrite Hr. cbn. destruct (Str.contains q r); [done | apply IH].
Qed.

(** Whatever the entries look like, [True] is only answered for a marked one. *)
Lemma should_retry_sound (e : exn) :
  should_retry e = Return true →
  ∃ fs m, e = ECSOperatorError fs m ∧ ∃ f, f ∈ fs ∧ quota_marked f.
Proof.
  destruct e as [| fs m | | | | | | |]; cbn; try done.
  intros H. exists fs, m. split; [done|].
  destruct (any_reason "RESOURCE:MEMORY" fs) as [[]|] eqn:E1; cbn in H; [| |done].
  - apply any_reason_true in E1 as (f & r & Hin & Hr & Hc).
    exists f. split; [done|]. exists r. auto.
  - destruct (any_reason "RESOURCE:CPU" fs) as [[]|] eqn:E2; cbn in H; [|done..].
    apply any_reason_true in E2 as (f & r & Hin & Hr & Hc).
    exists f. split; [done|]. exists r. auto.
Qed.

Lemma should_retry_complete (fs : list Failure.t) (m : Response) :
  Forall (λ f, is_Some (Failure.reason f)) fs →
  (∃ f, f ∈ fs ∧ quota_marked f) →
  should_retry (ECSOperatorError fs m) = Return true.
Proof.
  intros Hall (f & Hin & r & Hr & Hc). cbn.
  rewrite !any_reason_total by done. cbn.
  destruct (existsb _ fs) eqn:E1; [done|]. cbn.
  destruct (existsb (λ f, Str.contains "RESOURCE:CPU" _) fs) eqn:E2; [done|].
  exfalso. apply list_elem_of_In in Hin.
  destruct Hc as [Hc|Hc].
  - apply not_true_iff_false in E1. apply E1, existsb_exists.
    exists f. by rewrite Hr.
  - apply not_true_iff_false in E2. apply E2, existsb_exists.
    exists f. by rewrite Hr.
Qed.

Lemma should_retry_returns (fs : list Failure.t) (m : Response) :
  Forall (λ f, is_Some (Failure.reason f)) fs →
  ∃ b, should_retry (ECSOperatorError fs m) = Return b.
Proof.
  intros Hall. cbn. rewrite !any_reason_total by done. cbn.
  destruct (existsb _ fs); cbn; [by eauto|].
  destruct (existsb _ fs); eauto.
Qed.

(** What holds of the launch error and of its retry: [_start_task] raises
    [ECSOperatorError] exactly when the failures of the start response are
    not empty. [should_retry] accepts such an error only when a failure
    reason carries 'RESOURCE:MEMORY' or 'RESOURCE:CPU', and, each entry of
    the failures carrying a reason, exactly then; it rejects every other
    exception. *)
Lemma launch_error_and_retry (context : Context) (st : state) (c : ECSProtocol) :
  client (self st) = Some c →
  let response := run_task c (build_run_opts (self st)) in
  ((∃ fs m, (_start_task context st).1 = Raise (ECSOperatorError fs m)) ↔
   (∃ fs, failures response = Some fs ∧ fs ≠ [])) ∧
  (∀ fs, failures response = Some fs → fs ≠ [] →
         (_start_task context st).1 = Raise (ECSOperatorError fs response)) ∧
  (∀ fs m, should_retry (ECSOperatorError fs m) = Return true →
           ∃ f, f ∈ fs ∧ quota_marked f) ∧
  (∀ fs m, Forall (λ f, is_Some (Failure.reason f)) fs →
           ∃ b, should_retry (ECSOperatorError fs m) = Return b ∧
                (b = true ↔ ∃ f, f ∈ fs ∧ quota_marked f)) ∧
  (∀ e, (∀ fs m, e ≠ ECSOperatorError fs m) → should_retry e = Return false).
Proof.
  intros Hc response. rewrite (start_task_run _ _ _ Hc). fold response.
  split; [split|split; [|split; [|split]]].
  - intros (fs & m & H).
    destruct (failures response) as [[|f fs']|]; [|by eauto|done].
    destruct (tasks response) as [[|t ts]|]; [done| |done].
    by destruct (taskArn t).
  - intros (fs & -> & Hne). destruct fs; [done|]. eauto.
  - intros fs -> Hne. by destruct fs.
  - intros fs m (fs' & m' & [= <- <-] & H)%should_retry_sound. done.
  - intros fs m Hall. destruct (should_retry_returns fs m Hall) as [b Hb].
    exists b. split; [done|]. split.
    + intros ->. apply should_retry_sound in Hb as (fs' & m' & [= <- <-] & H). done.
    + intros H. rewrite (should_retry_complete fs m Hall H) in Hb. congruence.
  - intros e He. destruct e as [| fs m | | | | | | |]; try done. by destruct (He fs m).
Qed.

(** C4: a failure entry without a reason makes the retry predicate raise
    where the claim has it answer. The failures below hold an entry whose
    reason carries 'RESOURCE:CPU', so the launch error is one the claim makes
    eligible for retry; [should_retry] looks for 'RESOURCE:MEMORY' in every
    entry first, indexes the reason of the second entry and ends in
    [KeyError('reason')]. *)
Theorem retry_predicate_raises_on_marked_failures :
  let fs := [Failure.mk None (Some "RESOURCE:CPU") None; Failure.mk None None None] in
  (∃ f, f ∈ fs ∧ quota_marked f) ∧
  ∀ response, should_retry (ECSOperatorError fs response) = Raise (KeyError "reason").
Proof.
  split; [|done].
  exists (Failure.mk None (Some "RESOURCE:CPU") None).
  split; [apply elem_of_cons; by left|].
  exists "RESOURCE:CPU". split; [done|]. by right.
Qed.

(** ** Start or reattach *)

Lemma execute_phases (conn : ECSProtocol) (datetime : Datetime) (logs : AwsLogsHook)
    (context : Context) (st : state) :
  execute conn datetime logs context st =
    (start_or_reattach context;;; finish datetime logs) (connected conn st).
Proof. reflexivity. Qed.

(** With reattachment enabled lines 222 to 226 end where [_try_reattach_task]
    ends: the start is not reached. *)
Lemma start_or_reattach_raises (context : Context) (st : state) (c : ECSProtocol)
    (td : TaskDefinition) (fam : string) (running : list string) :
  reattach (self st) = true →
  client (self st) = Some c →
  taskDefinition (describe_task_definition c (task_definition (self st))) = Some td →
  family td = Some fam →
  taskArns (list_tasks c (cluster (self st)) "RUNNING" fam) = Some running →
  start_or_reattach context st =
    (Raise (TypeError "context"),
     mkState (self st) (calls st ++ looked_up (self st) fam) (xcom st)).
Proof.
  intros Hre Hc Htd Hfam Hrun.
  unfold start_or_reattach, M_bind at 1. unfold M_bind at 1, get_self at 1.
  rewrite Hre. cbn [truthy truthy_bool].
  by rewrite (try_reattach_run _ _ _ _ _ Hc Htd Hfam Hrun).
Qed.

(** C2: with reattachment enabled the invocation neither adopts a task nor
    starts one. Once the service has named the family of the task definition
    and listed the running tasks, the stored identifier is asked for with
    [self.xcom_pull(task_ids=..., key=...)], a call without the context the
    method requires, which raises [TypeError]. [execute] ends there: the two
    look-ups are the only requests, the operator has gained its client and
    nothing else, so no handle, and the XCom table is as it was, whether or
    not it holds an identifier that is listed as running. *)
Theorem reattach_neither_adopts_nor_starts (conn : ECSProtocol) (datetime : Datetime)
    (logs : AwsLogsHook) (context : Context) (st : state) (td : TaskDefinition)
    (fam : string) (running : list string) :
  reattach (self st) = true →
  taskDefinition (describe_task_definition conn (task_definition (self st))) = Some td →
  family td = Some fam →
  taskArns (list_tasks conn (cluster (self st)) "RUNNING" fam) = Some running →
  let out := execute conn datetime logs context st in
  out.1 = Raise (TypeError "context") ∧
  self out.2 = set_client (Some conn) (self st) ∧
  calls out.2 = calls st ++ looked_up (self st) fam ∧
  xcom out.2 = xcom st ∧
  ∀ run_opts, CallRunTask run_opts ∉ looked_up (self st) fam.
Proof.
  intros Hre Htd Hfam Hrun. cbv zeta.
  rewrite execute_phases. unfold M_bind.
  rewrite (start_or_reattach_raises context (connected conn st) conn td fam running)
    by done.
  repeat split; [done..|].
  intros run_opts H. cbn in H.
  repeat (apply elem_of_cons in H as [H|H]; [done|]). by apply elem_of_nil in H.
Qed.

(** ** What the steps of [execute] leave alone *)

Lemma M_bind_inv {A B} (c : M A) (k : A → M B) (st st' : state) (r : result B) :
  M_bind c k st = (r, st') →
  (∃ a st1, c st = (Return a, st1) ∧ k a st1 = (r, st')) ∨
  (∃ e, c st = (Raise e, st') ∧ r = Raise e).
Proof.
  unfold M_bind. destruct (c st) as [[a|e] st1]; [by eauto|].
  intros [= <- <-]. eauto.
Qed.

Lemma set_arn_same (o : ECSOperator) : set_arn (arn o) o = o.
Proof. by destruct o. Qed.

(** A run that ends in an exception before the operator is touched. *)
Ltac raised_early := intros [= <- <-]; cbn; by rewrite set_arn_same.

Lemma wait_frame (st st' : state) (r : result unit) :
  _wait_for_task_ended st = (r, st') →
  r = Return () ∧ self st' = self st ∧ xcom st' = xcom st.
Proof.
  rewrite wait_run. intros [= <- <-]. by destruct (nothing_to_do (self st)).
Qed.

Lemma check_success_frame (datetime : Datetime) (logs : AwsLogsHook) (st st' : state)
    (r : result unit) :
  _check_success_task datetime logs st = (r, st') →
  self st' = self st ∧ xcom st' = xcom st.
Proof.
  destruct (nothing_to_do (self st)) eqn:Hn.
  - unfold _check_success_task, M_bind, get_self. rewrite Hn. by intros [= <- <-].
  - apply nothing_to_do_false in Hn as (c & a & Hc & Ha & Hne).
    rewrite (check_success_run datetime logs st c a) by done. by intros [= <- <-].
Qed.

Lemma last_log_message_frame (logs : AwsLogsHook) (st st' : state)
    (r : result (option string)) :
  _last_log_message logs st = (r, st') →
  self st' = self st ∧ xcom st' = xcom st ∧
  (∀ m, r ≠ Raise (AirflowException m)) ∧
  (∀ v, r = Return v → v = expected_message logs (self st)).
Proof.
  unfold expected_message.
  destruct (_aws_logs_enabled (self st)) eqn:He.
  - destruct (arn (self st)) as [a|] eqn:Ha.
    + rewrite (last_log_message_run logs st a Ha), He. intros [= <- <-].
      repeat split; [done|]. by intros v [= <-].
    + unfold _last_log_message, _cloudwatch_log_events, M_bind, get_self.
      rewrite He, Ha. intros [= <- <-]. done.
  - rewrite last_log_message_disabled by done. intros [= <- <-].
    repeat split; [done|]. by intros v [= <-].
Qed.

Lemma try_reattach_frame (st st' : state) (r : result unit) :
  _try_reattach_task st = (r, st') →
  self st' = self st ∧ xcom st' = xcom st ∧
  ∃ e, r = Raise e ∧ ∀ m, e ≠ AirflowException m.
Proof.
  unfold _try_reattach_task, M_bind, get_self, the_client, M_bind, get_self,
    issue, modify, lift, xcom_pull, M_raise.
  destruct (client (self st)) as [c|]; cbn;
    [|intros [= <- <-]; by eauto].
  destruct (taskDefinition _) as [td|]; cbn;
    [|intros [= <- <-]; by eauto].
  destruct (family td) as [fam|]; cbn;
    [|intros [= <- <-]; by eauto].
  destruct (taskArns _) as [running|]; cbn;
    intros [= <- <-]; by eauto.
Qed.

Lemma start_task_frame (context : Context) (st st' : state) (r : result unit) :
  _start_task context st = (r, st') →
  self st' = set_arn (arn (self st')) (self st) ∧
  (∀ m, r ≠ Raise (AirflowException m)) ∧
  (reattach (self st) = false → xcom st' = xcom st) ∧
  (r = Return () →
   is_Some (arn (self st')) ∧
   (reattach (self st) = true →
    xcom st' !! reattach_key (self st) = arn (self st'))).
Proof.
  destruct (client (self st)) as [c|] eqn:Hc.
  - rewrite (start_task_run context st c Hc).
    destruct (failures _) as [[|f fs]|];
      [|raised_early..].
    destruct (tasks _) as [[|t ts]|];
      [raised_early| |raised_early].
    destruct (taskArn t) as [a|];
      [|raised_early].
    intros [= <- <-]. cbn. repeat split; [done| |by eauto|].
    + by intros ->.
    + intros ->. by rewrite lookup_insert_eq.
  - unfold _start_task, M_bind, get_self, the_client, M_bind, get_self.
    rewrite Hc. raised_early.
Qed.

Lemma set_arn_set_arn (a b : option string) (o : ECSOperator) :
  set_arn a (set_arn b o) = set_arn a o.
Proof. done. Qed.

(** With reattachment enabled lines 222 to 226 raise and change nothing;
    when they return, a task was started or was there already. *)
Lemma start_or_reattach_frame (context : Context) (st st' : state) (r : result unit) :
  start_or_reattach context st = (r, st') →
  self st' = set_arn (arn (self st')) (self st) ∧
  (∀ m, r ≠ Raise (AirflowException m)) ∧
  (reattach (self st) = true →
   self st' = self st ∧ xcom st' = xcom st ∧ ∃ e, r = Raise e) ∧
  (reattach (self st) = false → xcom st' = xcom st) ∧
  (r = Return () → is_Some (arn (self st'))).
Proof.
  unfold start_or_reattach.
  intros [([] & st1 & H1 & H2) | (e & H1 & ->)]%M_bind_inv.
  - unfold M_bind at 1, get_self at 1 in H1. cbn [self] in H1.
    destruct (reattach (self st)) eqn:Hre; cbn [truthy truthy_bool] in H1.
    { by apply try_reattach_frame in H1 as (_ & _ & e & ? & _). }
    injection H1 as <-.
    unfold M_bind, get_self in H2.
    destruct (arn (self st)) as [[|x a]|] eqn:E1; cbn in H2.
    + apply start_task_frame in H2 as (Hs2 & Hn2 & Hx2 & Hr2).
      repeat split; [done..| | |]; [done | by auto | by apply Hr2].
    + injection H2 as <- <-. rewrite set_arn_same, E1.
      repeat split; [done..| |]; [done | by eauto].
    + apply start_task_frame in H2 as (Hs2 & Hn2 & Hx2 & Hr2).
      repeat split; [done..| | |]; [done | by auto | by apply Hr2].
  - unfold M_bind, get_self in H1. destruct (reattach (self st)); cbn in H1; [|done].
    apply try_reattach_frame in H1 as (Hs & Hx & e' & [= <-] & Hn).
    rewrite Hs, set_arn_same. split; [done|]. split.
    { intros m [= ->]. by destruct (Hn m). }
    split; [by eauto|]. by split.
Qed.

Lemma finish_frame (datetime : Datetime) (logs : AwsLogsHook) (st st' : state)
    (r : result (option string)) :
  finish datetime logs st = (r, st') →
  self st' = self st ∧
  (∀ v, r = Return v →
        v = (if do_xcom_push (self st) then expected_message logs (self st) else None) ∧
        xcom st' = after_success st) ∧
  (∀ m, r = Raise (AirflowException m) → xcom st' = xcom st).
Proof.
  unfold finish.
  intros [([] & st1 & H1 & H2) | (e & H1 & ->)]%M_bind_inv;
    apply wait_frame in H1 as (Hr1 & Hs1 & Hx1); [|done].
  apply M_bind_inv in H2 as [([] & st2 & H2 & H3) | (e & H2 & ->)];
    apply check_success_frame in H2 as (Hs2 & Hx2);
    [|repeat split; (congruence || done || (intros; congruence))].
  apply M_bind_inv in H3 as [([] & st3 & H3 & H4) | (e & H3 & ->)].
  - assert (self st3 = self st ∧ xcom st3 = after_success st) as [Hs3 Hx3].
    { unfold M_bind, get_self, after_success in *.
      rewrite Hs2, Hs1 in H3. destruct (reattach (self st)); cbn in H3.
      - injection H3 as <-. cbn. split; [congruence|].
        by rewrite Hs2, Hs1, Hx2, Hx1.
      - injection H3 as <-. split; congruence. }
    unfold M_bind, get_self in H4. rewrite Hs3 in H4.
    destruct (do_xcom_push (self st)); cbn in H4.
    + apply last_log_message_frame in H4 as (Hs4 & Hx4 & Hn4 & Hv4).
      rewrite Hs3 in *. repeat split; [congruence| |congruence|].
      * by apply Hv4.
      * intros m ->. by destruct (Hn4 m).
    + injection H4 as <- <-. repeat split; (done || congruence).
  - exfalso. unfold M_bind, get_self in H3.
    by destruct (truthy (reattach (self st2))).
Qed.

(** ** The result of the invocation *)

Lemma execute_success (conn : ECSProtocol) (datetime : Datetime) (logs : AwsLogsHook)
    (context : Context) (st st' : state) (v : option string) :
  execute conn datetime logs context st = (Return v, st') →
  ∃ st1,
    start_or_reattach context (connected conn st) = (Return (), st1) ∧
    finish datetime logs st1 = (Return v, st') ∧
    self st' = set_arn (arn (self st')) (self (connected conn st)) ∧
    is_Some (arn (self st')).
Proof.
  rewrite execute_phases.
  intros [([] & st1 & H1 & H2) | (e & _ & ?)]%M_bind_inv; [|done].
  exists st1. repeat split; [done..| |].
  - apply start_or_reattach_frame in H1 as (Hs & _).
    apply finish_frame in H2 as (Hs' & _). by rewrite Hs'.
  - apply start_or_reattach_frame in H1 as (_ & _ & Hr).
    apply finish_frame in H2 as (Hs' & _). rewrite Hs'. by apply Hr.
Qed.

Lemma execute_result (conn : ECSProtocol) (datetime : Datetime) (logs : AwsLogsHook)
    (context : Context) (st st' : state) (v : option string) :
  execute conn datetime logs context st = (Return v, st') →
  v = if do_xcom_push (self st) then expected_message logs (self st') else None.
Proof.
  intros (st1 & H1 & H2 & Hs & _)%execute_success.
  apply start_or_reattach_frame in H1 as (Hs1 & _).
  apply finish_frame in H2 as (Hs2 & Hv & _).
  assert (do_xcom_push (self st1) = do_xcom_push (self st)) as Hp
    by by rewrite Hs1.
  destruct (Hv v eq_refl) as [-> _]. by rewrite Hp, Hs2.
Qed.

(** C9: on success the invocation returns the last log message when
    [do_xcom_push] is enabled, and [None] when it is disabled, whatever the
    logs hold. *)
Theorem result_only_when_pushing (conn : ECSProtocol) (datetime : Datetime)
    (logs : AwsLogsHook) (context : Context) (st st' : state) (v : option string) :
  execute conn datetime logs context st = (Return v, st') →
  (do_xcom_push (self st) = false → v = None) ∧
  (do_xcom_push (self st) = true → v = expected_message logs (self st')).
Proof.
  intros Hex%execute_result. split; intros Hp; by rewrite Hp in Hex.
Qed.

(** C6, as the code has it: the last-message result is the message of the
    final event of the stream '{streamPrefix}/{last path component of the task
    identifier}', and [None], not an error, when logs are not configured or
    the stream is empty; on success it is what the invocation returns when
    [do_xcom_push] is enabled. *)
Theorem last_message_result (logs : AwsLogsHook) :
  (∀ st a g p,
      arn (self st) = Some a →
      awslogs_group (self st) = Some g → g ≠ EmptyString →
      awslogs_stream_prefix (self st) = Some p → p ≠ EmptyString →
      let events := get_log_events logs g (p +:+ "/" +:+ last_path_component a) in
      (_last_log_message logs st).1 = Return (message <$> last events) ∧
      (events = [] → (_last_log_message logs st).1 = Return None)) ∧
  (∀ st,
      truthy (awslogs_group (self st)) = false ∨
      truthy (awslogs_stream_prefix (self st)) = false →
      _last_log_message logs st = (Return None, st)) ∧
  (∀ conn datetime context st st' v,
      execute conn datetime logs context st = (Return v, st') →
      do_xcom_push (self st) = true →
      ∃ a, arn (self st') = Some a ∧
           (_last_log_message logs st').1 = Return v).
Proof.
  split; [|split].
  - intros st a g p Ha Hg Hgne Hp Hpne events.
    rewrite (last_log_message_run logs st a) by done.
    unfold _aws_logs_enabled, final_message, log_stream_name.
    rewrite Hg, Hp. destruct g, p; try done. cbn. split; [done|].
    intros He. subst events. by rewrite He.
  - intros st Hmiss. apply last_log_message_disabled.
    unfold _aws_logs_enabled. destruct Hmiss as [-> | ->]; [done|].
    apply andb_false_r.
  - intros conn datetime context st st' v Hex Hpush.
    pose proof (execute_result _ _ _ _ _ _ _ Hex) as Hv. rewrite Hpush in Hv.
    apply execute_success in Hex as (_ & _ & _ & _ & [a Ha]).
    exists a. split; [done|].
    rewrite (last_log_message_run logs st' a Ha). cbn.
    rewrite Hv. unfold expected_message. by rewrite Ha.
Qed.



(** ** The evaluation against section 4.3 *)

Lemma check_container_verdict (task : Task) (c : Container.t) :
  exit_code_known c →
  verdict_of (check_container task c) = Some (container_verdict c).
Proof.
  intros Hk. unfold check_container, stopped_nonzero, container_verdict,
    nonzero_exit, still_pending, launch_error.
  case_bool_decide as Hs; cbn.
  - destruct (Hk Hs) as [code ->]. cbn.
    destruct (negb (code =? 0)); [done|]. rewrite Hs. cbn.
    by destruct (Str.contains _ _).
  - case_bool_decide; [done|]. by destruct (Str.contains _ _).
Qed.

(** A stopped container without an exit code ends the evaluation with a
    [KeyError]. *)
Lemma check_container_key_error (task : Task) (c : Container.t) :
  Container.lastStatus c = Some "STOPPED" → Container.exitCode c = None →
  check_container task c = Raise (KeyError "exitCode").
Proof.
  intros Hs He. unfold check_container, stopped_nonzero.
  by rewrite bool_decide_eq_true_2, He.
Qed.

Lemma check_container_returns (task : Task) (c : Container.t) :
  check_container task c = Return () → container_verdict c = Success.
Proof.
  unfold check_container, stopped_nonzero, container_verdict,
    nonzero_exit, still_pending, launch_error.
  case_bool_decide as Hs; cbn.
  - destruct (Container.exitCode c) as [code|]; [|done]. cbn.
    destruct (negb (code =? 0)); [done|]. rewrite Hs. cbn.
    by destruct (Str.contains _ _).
  - case_bool_decide; [done|]. by destruct (Str.contains _ _).
Qed.

Lemma check_containers_verdict (task : Task) (cs : list Container.t) :
  Forall exit_code_known cs →
  verdict_of (check_containers task cs) = Some (containers_verdict cs).
Proof.
  induction 1 as [|c cs Hc _ IH]; cbn; [done|].
  pose proof (check_container_verdict task c Hc) as Hv.
  destruct (check_container task c) as [[]|e] eqn:E; cbn in *.
  - injection Hv as <-. apply IH.
  - destruct (container_verdict c); [by destruct e as [[]| | | | | | | |]|done].
Qed.

(** Where every stopped container has its exit code, the evaluation of a
    description of one task is the first positive match of section 4.3. *)
Lemma check_response_first_match (fs : option (list Failure.t)) (a stop : option string)
    (cs : list Container.t) :
  Forall exit_code_known cs →
  verdict_of (check_response (mkResponse fs (Some [mkTask a stop (Some cs)]))) =
    Some (first_positive_match (default [] fs) stop cs).
Proof.
  intros Hcs. unfold check_response, first_positive_match. cbn.
  destruct (default [] fs) as [|f fs']; cbn; [|done].
  unfold check_task. cbn. destruct (re_match_host _); [done|]. cbn.
  pose proof (check_containers_verdict (mkTask a stop (Some cs)) cs Hcs) as Hv.
  by destruct (check_containers _ cs) as [[]|e].
Qed.

(** There the evaluation ends in success or in an [AirflowException]. *)
Lemma check_response_total (fs : option (list Failure.t)) (a stop : option string)
    (cs : list Container.t) :
  Forall exit_code_known cs →
  let r := check_response (mkResponse fs (Some [mkTask a stop (Some cs)])) in
  r = Return () ∨ ∃ m, r = Raise (AirflowException m).
Proof.
  intros Hcs r. pose proof (check_response_first_match fs a stop cs Hcs) as Hv.
  fold r in Hv. destruct r as [[]|[m| | | | | | | |]]; try done; eauto.
Qed.

(** ** The scenarios of section 8 *)

Example scenario_c_pattern :
  re_match_host "Host EC2 (instance i-123) terminated." = true.
Proof. reflexivity. Qed.

Example pattern_needs_an_instance :
  re_match_host "Host EC2 (instance ) stopped." = false.
Proof. reflexivity. Qed.

Example pattern_is_not_anchored_at_the_end :
  re_match_host "Host EC2 (instance i-1) stopped. Try again" = true.
Proof. reflexivity. Qed.

Example split_task_arn :
  Str.split "/" "arn:aws:ecs:region:task/cluster/d8c67b3c" =
  ["arn:aws:ecs:region:task"; "cluster"; "d8c67b3c"].
Proof. reflexivity. Qed.

Example lower_mixed_case : Str.lower "CannotPull ERROR: x" = "cannotpull error: x".
Proof. reflexivity. Qed.

(** Scenario B. *)
Example scenario_b :
  verdict_of (check_response (Fixture.described [Fixture.exited 1])) =
  Some (Failure ContainerNonZeroExit).
Proof. reflexivity. Qed.

(** Scenario C: with a stop reason of the pattern, the containers are not
    looked at. *)
Lemma host_terminated_first (fs : option (list Failure.t)) (a : option string)
    (stop : string) (cs : option (list Container.t)) :
  default [] fs = [] → re_match_host stop = true →
  check_response (mkResponse fs (Some [mkTask a (Some stop) cs])) =
    Raise (AirflowException (MsgHostTerminated stop)).
Proof.
  intros Hfs Hre. unfold check_response. cbn [failures]. rewrite Hfs. cbn.
  unfold check_task. cbn. by rewrite Hre.
Qed.

(** Scenario A, the first attempt: the refusal for want of CPU is retryable. *)
Example scenario_a_retryable :
  should_retry
    (ECSOperatorError [Failure.mk None (Some "RESOURCE:CPU") None]
       (mkResponse (Some [Failure.mk None (Some "RESOURCE:CPU") None]) (Some []))) =
  Return true.
Proof. reflexivity. Qed.

(** A failures entry without a reason makes [should_retry] raise. *)
Example should_retry_needs_reasons :
  should_retry
    (ECSOperatorError [Failure.mk None None None; Failure.mk None (Some "RESOURCE:CPU") None]
       (mkResponse None None)) =
  Raise (KeyError "reason").
Proof. reflexivity. Qed.

Lemma init_has_no_task tid did own push td cl ov conn_id region lt cps grp pc ps
    pv nc tg lg lr lp pt qr re :
  arn (__init__ tid did own push td cl ov conn_id region lt cps grp pc ps pv nc
         tg lg lr lp pt qr re) = None ∧
  client (__init__ tid did own push td cl ov conn_id region lt cps grp pc ps pv nc
            tg lg lr lp pt qr re) = None.
Proof. done. Qed.

(** ** The evaluation on a container that never started *)

(** C1: a container whose image could not be pulled is stopped, has no exit
    code and carries a reason with 'error' in it. Section 4.3 makes the launch
    error its first positive match; [_check_success_task] raises [KeyError]
    on reading the exit code and reports no failure of section 4.3. *)
Theorem pull_failure_is_not_classified :
  let st := Fixture.supervising (Fixture.service [] [Fixture.never_started]) in
  (_check_success_task Fixture.utc Fixture.logs st).1 = Raise (KeyError "exitCode") ∧
  first_positive_match [] (Some "Essential container in task exited")
    [Fixture.never_started] = Failure ContainerLaunchError.
Proof. by vm_compute. Qed.

(** C7: on a stopped container without an exit code the evaluation ends
    with a [KeyError], which stands for no verdict. *)
Theorem evaluation_ends_in_key_error :
  let response :=
    Fixture.described [Container.mk (Some "app") (Some "STOPPED") None None] in
  check_response response = Raise (KeyError "exitCode") ∧
  verdict_of (check_response response) = None.
Proof. by vm_compute. Qed.

(** ** Runs the statements as written do not cover *)

(** C6 as stated fails in its last part: with [do_xcom_push] disabled the
    invocation below succeeds and returns [None], while the last message of
    the stream of its task is "done". *)
Lemma quiet_run_returns_nothing :
  let run :=
    execute (Fixture.service [] [Fixture.exited 0]) Fixture.utc Fixture.logs
      Fixture.context (Fixture.fresh (Fixture.quiet Fixture.plain)) in
  run.1 = Return None ∧
  (_last_log_message Fixture.logs run.2).1 = Return (Some "done").
Proof. by vm_compute. Qed.

(** ** Instances *)

(** The stored identifier is listed as running, and is not adopted. *)
Lemma reattach_neither_adopts_nor_starts_witness :
  let conn := Fixture.service [Fixture.task_arn] [] in
  let out := execute conn Fixture.utc Fixture.logs Fixture.context Fixture.stored in
  xcom Fixture.stored !! reattach_key Fixture.operator = Some Fixture.task_arn ∧
  out.1 = Raise (TypeError "context") ∧
  arn (self out.2) = None ∧
  calls out.2 = looked_up Fixture.operator "fam".
Proof.
  intros conn out.
  pose proof (reattach_neither_adopts_nor_starts conn Fixture.utc Fixture.logs
                Fixture.context Fixture.stored (mkTaskDefinition (Some "fam")) "fam"
                [Fixture.task_arn] eq_refl eq_refl eq_refl eq_refl) as H.
  cbv zeta in H. destruct H as (H1 & H2 & H3 & _).
  split; [by vm_compute|]. split; [exact H1|]. split; [|exact H3].
  fold conn in H2. fold out in H2. by rewrite H2.
Defined.

Lemma start_request_launch_fields_witness :
  ∃ run_opts,
    calls (_start_task Fixture.context
             (connected (Fixture.service [] []) (Fixture.fresh Fixture.operator))).2 =
      [CallRunTask run_opts] ∧
    run_opts !! "launchType" = Some (PStr "EC2") ∧
    run_opts !! "capacityProviderStrategy" = None.
Proof.
  destruct (start_request_launch_fields Fixture.context
              (connected (Fixture.service [] []) (Fixture.fresh Fixture.operator))
              (Fixture.service [] []) eq_refl)
    as (run_opts & Hcalls & _ & Hlt).
  exists run_opts. split; [exact Hcalls|].
  destruct (Hlt "EC2" eq_refl eq_refl) as (H1 & H2 & _); [done|].
  by split.
Defined.

(** The refusal for want of CPU at the start is raised and is retryable. *)
Lemma launch_error_and_retry_witness :
  let st := connected Fixture.refusing (Fixture.fresh Fixture.operator) in
  ∃ fs m, (_start_task Fixture.context st).1 = Raise (ECSOperatorError fs m) ∧
          should_retry (ECSOperatorError fs m) = Return true.
Proof.
  intros st.
  destruct (launch_error_and_retry Fixture.context st Fixture.refusing eq_refl)
    as (_ & Hraise & _ & Hretry & _).
  eexists _, _. split.
  - apply Hraise; [reflexivity | done].
  - destruct (Hretry [Failure.mk (Some "arn:aws:ecs:instance/1") (Some "RESOURCE:CPU") None]
                (run_task Fixture.refusing (build_run_opts (self st))))
      as (b & Hb & Hiff).
    + repeat constructor. by eexists.
    + rewrite Hb. f_equal. apply Hiff. eexists. split.
      * apply elem_of_cons. by left.
      * eexists. split; [reflexivity|]. by right.
Defined.

Lemma on_kill_stops_once_witness :
  on_kill (Fixture.supervising (Fixture.service [] [])) =
  (Return (),
   mkState (self (Fixture.supervising (Fixture.service [] [])))
     [CallStopTask "c" Fixture.task_arn "Task killed by the user"] ∅).
Proof.
  apply (on_kill_stops_once (Fixture.supervising (Fixture.service [] []))
           (Fixture.service [] []) Fixture.task_arn); [reflexivity | reflexivity | done].
Defined.

Lemma no_handle_no_effect_witness :
  let st := Fixture.fresh Fixture.operator in
  _wait_for_task_ended st = (Return (), st) ∧
  _check_success_task Fixture.utc Fixture.logs st = (Return (), st) ∧
  on_kill st = (Return (), st).
Proof.
  apply (no_handle_no_effect Fixture.utc Fixture.logs (Fixture.fresh Fixture.operator)).
  left. reflexivity.
Defined.

(** A run with a stream that ends in "done" and [do_xcom_push] disabled. *)
Lemma result_only_when_pushing_witness :
  let conn := Fixture.service [] [Fixture.exited 0] in
  let st := Fixture.fresh (Fixture.quiet Fixture.plain) in
  let run := execute conn Fixture.utc Fixture.logs Fixture.context st in
  (run = (Return None, run.2) ∧
   expected_message Fixture.logs (self run.2) = Some "done") ∧
  (do_xcom_push (self st) = false → (None : option string) = None) ∧
  (do_xcom_push (self st) = true → None = expected_message Fixture.logs (self run.2)).
Proof.
  intros conn st run. split; [by vm_compute|].
  apply (result_only_when_pushing conn Fixture.utc Fixture.logs Fixture.context st run.2 None).
  by vm_compute.
Defined.

Lemma last_message_result_witness :
  (_last_log_message Fixture.logs
     (Fixture.supervising (Fixture.service [] []))).1 = Return (Some "done").
Proof.
  destruct (last_message_result Fixture.logs) as (Hlast & _ & _).
  destruct (Hlast (Fixture.supervising (Fixture.service [] [])) Fixture.task_arn
              "/ecs/t" "ecs/app" eq_refl eq_refl ltac:(done) eq_refl ltac:(done))
    as [H _].
  rewrite H. by vm_compute.
Defined.


(** * Further properties *)

(** ** The evaluation of the description *)

Lemma check_container_ok (task : Task) (c : Container.t) :
  check_container task c = Return () ↔ container_ok c.
Proof.
  unfold check_container, stopped_nonzero, container_ok.
  case_bool_decide as Hs; cbn.
  - destruct (Container.exitCode c) as [code|]; cbn.
    + destruct (Z.eqb_spec code 0) as [->|Hne]; cbn.
      * rewrite Hs. cbn. destruct (Str.contains _ _).
        -- split; [done | by intros (_ & _ & ?)].
        -- split; [intros _; by repeat split | done].
      * split; [done|]. intros [H _]. specialize (H Hs). congruence.
    + split; [done|]. intros [H _]. specialize (H Hs). congruence.
  - case_bool_decide as Hp.
    + split; [done|]. by intros (_ & ? & _).
    + destruct (Str.contains _ _).
      * split; [done | by intros (_ & _ & ?)].
      * split; [intros _; by repeat split | done].
Qed.

Lemma check_containers_ok (task : Task) (cs : list Container.t) :
  check_containers task cs = Return () ↔ Forall container_ok cs.
Proof.
  induction cs as [|c cs IH]; cbn.
  - split; [by constructor | done].
  - rewrite Forall_cons, <- IH, <- (check_container_ok task c).
    destruct (check_container task c) as [[]|e]; cbn; [|split; [done|by intros [? _]]].
    split; [by split | by intros [_ ?]].
Qed.

Lemma check_task_ok (t : Task) : check_task t = Return () ↔ task_ok t.
Proof.
  unfold check_task, task_ok.
  destruct (re_match_host _); [split; [done | by intros [? _]]|].
  destruct (containers t) as [cs|]; cbn.
  - rewrite check_containers_ok. split; [by eauto|]. by intros (_ & cs' & [= <-] & ?).
  - split; [done|]. by intros (_ & cs' & ? & _).
Qed.

Lemma check_tasks_ok (ts : list Task) :
  check_tasks ts = Return () ↔ Forall task_ok ts.
Proof.
  induction ts as [|t ts IH]; cbn.
  - split; [by constructor | done].
  - rewrite Forall_cons, <- IH, <- (check_task_ok t).
    destruct (check_task t) as [[]|e]; cbn; [|split; [done|by intros [? _]]].
    split; [by split | by intros [_ ?]].
Qed.

(** X2: the evaluation ends without an exception exactly when the response
    has no failures, has its tasks, and every task has a stop reason outside
    the host pattern and containers that are each neither stopped with a
    code other than 0 (or with none), nor pending, nor with 'error' in the
    lower-cased reason. *)
Theorem evaluation_succeeds_iff (response : Response) :
  check_response response = Return () ↔
  default [] (failures response) = [] ∧
  ∃ ts, tasks response = Some ts ∧ Forall task_ok ts.
Proof.
  unfold check_response.
  destruct (default [] (failures response)) as [|f fs]; cbn.
  - destruct (tasks response) as [ts|]; cbn.
    + rewrite check_tasks_ok. split; [by eauto|]. by intros (_ & ts' & [= <-] & ?).
    + split; [done|]. by intros (_ & ts' & ? & _).
  - split; [done|]. by intros [? _].
Qed.

Lemma check_container_raises (task : Task) (c : Container.t) (e : exn) :
  check_container task c = Raise e →
  (e = AirflowException (MsgNotInSuccessState task) ∧
   ∃ code, Container.lastStatus c = Some "STOPPED" ∧
           Container.exitCode c = Some code ∧ code ≠ 0) ∨
  (e = AirflowException (MsgStillPending task) ∧
   Container.lastStatus c = Some "PENDING") ∨
  (∃ r, e = AirflowException (MsgLaunchError (Str.lower r)) ∧
        Container.reason c = Some r ∧ Str.contains "error" (Str.lower r) = true) ∨
  (e = KeyError "exitCode" ∧ Container.lastStatus c = Some "STOPPED" ∧
   Container.exitCode c = None).
Proof.
  unfold check_container, stopped_nonzero.
  assert (∀ b : bool,
    (if b then Raise (AirflowException (MsgLaunchError
               (Str.lower (default EmptyString (Container.reason c)))))
     else Return ()) = Raise e →
    b = Str.contains "error" (Str.lower (default EmptyString (Container.reason c))) →
    ∃ r, e = AirflowException (MsgLaunchError (Str.lower r)) ∧
         Container.reason c = Some r ∧ Str.contains "error" (Str.lower r) = true)
    as Hlaunch.
  { intros [] [= <-] Hb. destruct (Container.reason c) as [r|]; [|done].
    by exists r. }
  case_bool_decide as Hs; cbn.
  - destruct (Container.exitCode c) as [code|]; cbn.
    + destruct (Z.eqb_spec code 0) as [->|Hne]; cbn.
      * rewrite Hs. cbn. intros H. right. right. left. by apply (Hlaunch _ H).
      * intros [= <-]. left. split; [done|]. by exists code.
    + intros [= <-]. by repeat right.
  - case_bool_decide as Hp.
    + intros [= <-]. right. by left.
    + intros H. right. right. left. by apply (Hlaunch _ H).
Qed.

Lemma check_containers_raises (task : Task) (cs : list Container.t) (e : exn) :
  check_containers task cs = Raise e →
  ∃ c, c ∈ cs ∧ check_container task c = Raise e.
Proof.
  induction cs as [|c cs IH]; cbn; [done|].
  destruct (check_container task c) as [[]|e'] eqn:E; cbn.
  - intros (c' & Hin & H)%IH. exists c'. split; [|done]. apply elem_of_cons. by right.
  - intros [= <-]. exists c. split; [|done]. apply elem_of_cons. by left.
Qed.

Lemma check_tasks_raises (ts : list Task) (e : exn) :
  check_tasks ts = Raise e → ∃ t, t ∈ ts ∧ check_task t = Raise e.
Proof.
  induction ts as [|t ts IH]; cbn; [done|].
  destruct (check_task t) as [[]|e'] eqn:E; cbn.
  - intros (t' & Hin & H)%IH. exists t'. split; [|done]. apply elem_of_cons. by right.
  - intros [= <-]. exists t. split; [|done]. apply elem_of_cons. by left.
Qed.

Lemma check_response_justified (response : Response) (e : exn) :
  check_response response = Raise e → justified response e.
Proof.
  unfold check_response.
  destruct (default [] (failures response)) as [|f fs] eqn:Ef; cbn.
  - destruct (tasks response) as [ts|] eqn:Et; cbn; [|intros [= <-]; cbn; by left].
    intros (t & Hin & Ht)%check_tasks_raises. unfold check_task in Ht.
    destruct (re_match_host _) eqn:Hre.
    + injection Ht as <-. cbn. exists t. rewrite Et. split; [done|].
      destruct (stoppedReason t) as [s|]; [done|]. by vm_compute in Hre.
    + destruct (containers t) as [cs|] eqn:Ec; cbn in Ht.
      * apply check_containers_raises in Ht as (c & Hc & Ht).
        apply check_container_raises in Ht
          as [(-> & code & Hs & Hcode & Hne) | [(-> & Hp) | [(r & -> & Hr & Herr)
             | (-> & Hs & Hcode)]]]; cbn; rewrite ?Et, ?Ec; cbn.
        -- split; [done|]. by exists c, code.
        -- split; [done|]. by exists c.
        -- exists t, c, r. by rewrite Ec.
        -- right. right. split; [done|]. exists t, c. by rewrite Ec.
      * injection Ht as <-. cbn. right. left. split; [done|]. exists t. by rewrite Et.
  - intros [= <-]. cbn. by rewrite Ef.
Qed.

(** X3: every exception of the evaluation is borne out by the response: an
    [AirflowException] names a failure that is there (the failures of the
    response, a stop reason of the host pattern, a stopped container with a
    code other than 0, a pending container, a reason with 'error'), and any
    other exception is a [KeyError] for a key that is missing. *)
Theorem evaluation_failures_are_justified (response : Response) (e : exn) :
  check_response response = Raise e → justified response e.
Proof.
  apply check_response_justified.
Qed.

Lemma check_task_verdict (t : Task) :
  readable t → verdict_of (check_task t) = Some (task_verdict t).
Proof.
  intros (cs & Hcs & Hall). unfold check_task, task_verdict. rewrite Hcs.
  destruct (re_match_host _); [done|]. cbn. by apply check_containers_verdict.
Qed.

Lemma check_tasks_verdict (ts : list Task) :
  Forall readable ts → verdict_of (check_tasks ts) = Some (tasks_verdict ts).
Proof.
  induction 1 as [|t ts Ht _ IH]; cbn; [done|].
  pose proof (check_task_verdict t Ht) as Hv.
  destruct (check_task t) as [[]|e] eqn:E; cbn in *.
  - injection Hv as <-. apply IH.
  - destruct (task_verdict t); [by destruct e as [[]| | | | | | | |]|done].
Qed.

(** X4: for a response whose tasks have their containers, each stopped
    container with its exit code, the evaluation ends in the first positive
    match: the failures of the response, then task by task the stop reason of
    the host pattern and the containers in their order, each asked whether it
    stopped with a code other than 0, is pending, or has 'error' in its
    reason. *)
Theorem evaluation_is_first_match (response : Response) (ts : list Task) :
  tasks response = Some ts → Forall readable ts →
  verdict_of (check_response response) = Some (response_verdict response).
Proof.
  intros Ht Hall. unfold check_response, response_verdict. rewrite Ht.
  destruct (default [] (failures response)); cbn; [|done].
  pose proof (check_tasks_verdict ts Hall) as Hv.
  by destruct (check_tasks ts) as [[]|e].
Qed.

Lemma evaluation_is_first_match_witness :
  verdict_of (check_response (mkResponse None (Some Sample.two_tasks))) =
  Some (Failure HostTerminated).
Proof.
  apply (evaluation_is_first_match (mkResponse None (Some Sample.two_tasks))
           Sample.two_tasks eq_refl).
  repeat constructor; eexists; (split; [reflexivity|]); repeat constructor; by eexists.
Defined.

Lemma evaluation_failures_are_justified_witness :
  justified (Fixture.described [Fixture.exited 1])
    (AirflowException
       (MsgNotInSuccessState
          (mkTask (Some Fixture.task_arn) (Some "Essential container in task exited")
             (Some [Fixture.exited 1])))).
Proof.
  apply (evaluation_failures_are_justified (Fixture.described [Fixture.exited 1])).
  reflexivity.
Defined.

(** X1: the stop reasons the host pattern accepts are those that start with
    'Host EC2 (instance ', go on with at least one character and no line feed
    up to ') stopped.' or ') terminated.', and end as they like. *)
Theorem host_pattern_accepts (s : string) :
  re_match_host s = true ↔
  ∃ instance state rest,
    s = "Host EC2 (instance " +:+ instance +:+ ") " +:+ state +:+ "." +:+ rest ∧
    instance ≠ EmptyString ∧
    Str.contains (String newline EmptyString) instance = false ∧
    (state = "stopped" ∨ state = "terminated").
Proof. apply re_match_host_spec. Qed.

(** X5: [_start_task] without a client raises [AttributeError] and does
    nothing. With a client it issues the one start request whatever the
    answer; when it raises, the operator and the XCom table are as before,
    and the exception tells the answer: [ECSOperatorError] for failures,
    [KeyError] for a missing 'failures', 'tasks' or 'taskArn', [IndexError]
    for no task and no failure; when it returns, the handle is the arn of the
    first task, kept in the XCom table when reattachment is enabled. *)
Theorem start_task_outcome (context : Context) (st : state) :
  let response c := run_task c (build_run_opts (self st)) in
  let out := _start_task context st in
  (client (self st) = None → out = (Raise (AttributeError "run_task"), st)) ∧
  (∀ c, client (self st) = Some c →
     calls out.2 = calls st ++ [CallRunTask (build_run_opts (self st))] ∧
     match out.1 with
     | Return _ =>
         ∃ t ts a,
           failures (response c) = Some [] ∧ tasks (response c) = Some (t :: ts) ∧
           taskArn t = Some a ∧ self out.2 = set_arn (Some a) (self st) ∧
           xcom out.2 = if reattach (self st)
                        then <[reattach_key (self st) := a]> (xcom st)
                        else xcom st
     | Raise e =>
         self out.2 = self st ∧ xcom out.2 = xcom st ∧
         match e with
         | ECSOperatorError fs m =>
             m = response c ∧ failures (response c) = Some fs ∧ fs ≠ []
         | KeyError k =>
             (k = "failures" ∧ failures (response c) = None) ∨
             (k = "tasks" ∧ failures (response c) = Some [] ∧
              tasks (response c) = None) ∨
             (k = "taskArn" ∧ failures (response c) = Some [] ∧
              ∃ t ts, tasks (response c) = Some (t :: ts) ∧ taskArn t = None)
         | IndexError =>
             failures (response c) = Some [] ∧ tasks (response c) = Some []
         | _ => False
         end
     end).
Proof.
  cbv zeta. split.
  - intros Hc. unfold _start_task, M_bind, get_self, the_client, M_bind, get_self.
    by rewrite Hc.
  - intros c Hc. rewrite (start_task_run context st c Hc). cbv zeta.
    destruct (failures _) as [[|f fs]|] eqn:Ef; cbn.
    + destruct (tasks _) as [[|t ts]|] eqn:Et; cbn.
      * by repeat split.
      * destruct (taskArn t) as [a|] eqn:Ea; cbn.
        -- split; [done|]. by exists t, ts, a.
        -- repeat split; try done. right. right. repeat split; try done.
           by exists t, ts.
      * repeat split; try done. right. left. by repeat split.
    + by repeat split.
    + repeat split; try done. by left.
Qed.

Lemma start_task_outcome_witness :
  let st := connected Fixture.refusing (Fixture.fresh Fixture.operator) in
  let out := _start_task Fixture.context st in
  calls out.2 = [CallRunTask (build_run_opts (self st))] ∧
  ∃ fs m, out.1 = Raise (ECSOperatorError fs m) ∧ arn (self out.2) = None.
Proof.
  intros st out.
  destruct (start_task_outcome Fixture.context st) as [_ Hout].
  destruct (Hout Fixture.refusing eq_refl) as [Hcalls Hres].
  split; [exact Hcalls|]. fold out in Hres.
  assert (∃ fs m, out.1 = Raise (ECSOperatorError fs m)) as (fs & m & Hraise)
    by (eexists _, _; by vm_compute).
  exists fs, m. split; [done|]. rewrite Hraise in Hres.
  destruct Hres as (-> & _). reflexivity.
Defined.

(** ** The ways reattaching ends *)

(** The ways [_try_reattach_task] ends. *)
Lemma try_reattach_cases (st : state) :
  let out := _try_reattach_task st in
  let asked := CallDescribeTaskDefinition (task_definition (self st)) in
  self out.2 = self st ∧ xcom out.2 = xcom st ∧
  ∃ e, out.1 = Raise e ∧
    match e with
    | AttributeError attr =>
        attr = "describe_task_definition" ∧ client (self st) = None ∧
        calls out.2 = calls st
    | KeyError k =>
        ∃ c, client (self st) = Some c ∧
          let described := describe_task_definition c (task_definition (self st)) in
          ((k = "taskDefinition" ∧ taskDefinition described = None ∧
            calls out.2 = calls st ++ [asked]) ∨
           (k = "family" ∧
            (∃ td, taskDefinition described = Some td ∧ family td = None) ∧
            calls out.2 = calls st ++ [asked]) ∨
           (k = "taskArns" ∧
            ∃ td fam,
              taskDefinition described = Some td ∧ family td = Some fam ∧
              taskArns (list_tasks c (cluster (self st)) "RUNNING" fam) = None ∧
              calls out.2 = calls st ++ looked_up (self st) fam))
    | TypeError missing =>
        missing = "context" ∧
        ∃ c td fam running,
          client (self st) = Some c ∧
          taskDefinition (describe_task_definition c (task_definition (self st))) =
            Some td ∧
          family td = Some fam ∧
          taskArns (list_tasks c (cluster (self st)) "RUNNING" fam) = Some running ∧
          calls out.2 = calls st ++ looked_up (self st) fam
    | _ => False
    end.
Proof.
  cbv zeta.
  unfold _try_reattach_task, M_bind, get_self, the_client, M_bind, get_self,
    issue, modify, lift, xcom_pull, M_raise, looked_up.
  destruct (client (self st)) as [c|] eqn:Hc; cbn.
  2:{ split; [done|]. split; [done|]. by eexists. }
  destruct (taskDefinition _) as [td|] eqn:Htd; cbn.
  2:{ split; [done|]. split; [done|]. eexists. split; [done|].
      exists c. split; [done|]. left. by rewrite Htd. }
  destruct (family td) as [fam|] eqn:Hfam; cbn.
  2:{ split; [done|]. split; [done|]. eexists. split; [done|].
      exists c. split; [done|]. right. left. rewrite Htd. by eauto. }
  rewrite <- !app_assoc. cbn [app].
  destruct (taskArns _) as [running|] eqn:Hrun; cbn.
  - split; [done|]. split; [done|]. eexists. split; [done|]. split; [done|].
    by exists c, td, fam, running.
  - split; [done|]. split; [done|]. eexists. split; [done|].
    exists c. split; [done|]. right. right. split; [done|].
    exists td, fam. by rewrite Htd.
Qed.


(** X7: [_try_reattach_task] never returns and never adopts a task. It
    ends in [AttributeError] without a client, in [KeyError] when an answer of
    the service lacks 'taskDefinition', 'family' or 'taskArns', and otherwise,
    the two look-ups made, in the [TypeError] of the call of [xcom_pull]
    without its context. However it ends, the operator and the XCom table are
    as before. *)
Theorem reattach_never_returns (st : state) :
  let out := _try_reattach_task st in
  let asked := CallDescribeTaskDefinition (task_definition (self st)) in
  self out.2 = self st ∧ xcom out.2 = xcom st ∧
  ∃ e, out.1 = Raise e ∧
    match e with
    | AttributeError attr =>
        attr = "describe_task_definition" ∧ client (self st) = None ∧
        calls out.2 = calls st
    | KeyError k =>
        ∃ c, client (self st) = Some c ∧
          let described := describe_task_definition c (task_definition (self st)) in
          ((k = "taskDefinition" ∧ taskDefinition described = None ∧
            calls out.2 = calls st ++ [asked]) ∨
           (k = "family" ∧
            (∃ td, taskDefinition described = Some td ∧ family td = None) ∧
            calls out.2 = calls st ++ [asked]) ∨
           (k = "taskArns" ∧
            ∃ td fam,
              taskDefinition described = Some td ∧ family td = Some fam ∧
              taskArns (list_tasks c (cluster (self st)) "RUNNING" fam) = None ∧
              calls out.2 = calls st ++ looked_up (self st) fam))
    | TypeError missing =>
        missing = "context" ∧
        ∃ c td fam running,
          client (self st) = Some c ∧
          taskDefinition (describe_task_definition c (task_definition (self st))) =
            Some td ∧
          family td = Some fam ∧
          taskArns (list_tasks c (cluster (self st)) "RUNNING" fam) = Some running ∧
          calls out.2 = calls st ++ looked_up (self st) fam
    | _ => False
    end.
Proof. apply try_reattach_cases. Qed.

(** ** Whole runs *)

(** [finish] on an operator with a client and a handle, in closed form. *)
Lemma finish_run (datetime : Datetime) (logs : AwsLogsHook) (st : state)
    (c : ECSProtocol) (a : string) :
  client (self st) = Some c → arn (self st) = Some a → a ≠ EmptyString →
  finish datetime logs st =
    match evaluated datetime logs (self st)
            (describe_tasks c (cluster (self st)) [a]) with
    | Raise e =>
        (Raise e, mkState (self st) (calls st ++ supervised (self st) a) (xcom st))
    | Return _ =>
        (Return (if do_xcom_push (self st) then expected_message logs (self st)
                 else None),
         mkState (self st)
           (calls st ++ supervised (self st) a ++
            if do_xcom_push (self st) then log_calls (self st) else [])
           (after_success st))
    end.
Proof.
  intros Hc Ha Hne.
  assert (nothing_to_do (self st) = false) as Hn
    by (apply nothing_to_do_false; eauto).
  unfold finish, M_bind at 1. rewrite wait_run, Hn.
  unfold M_bind at 1.
  rewrite (check_success_run datetime logs _ c a) by done. cbn [self calls xcom].
  rewrite Ha. cbn [default]. unfold supervised.
  destruct (evaluated _ _ _ _) as [[]|e].
  - unfold M_bind at 1. unfold M_bind at 1, get_self at 1. cbn [self].
    unfold after_success.
    destruct (reattach (self st)); cbn [truthy truthy_bool _xcom_del modify M_ret];
      unfold M_bind, get_self; cbn [self calls xcom];
      (destruct (do_xcom_push (self st)); cbn [truthy truthy_bool M_ret];
       [ rewrite (last_log_message_run logs _ a) by done; cbn [self calls xcom];
         unfold expected_message; rewrite Ha;
         by rewrite <- !app_assoc
       | by rewrite app_nil_r, <- !app_assoc ]).
  - by rewrite <- !app_assoc.
Qed.

Lemma build_run_opts_set_client (c : option ECSProtocol) (o : ECSOperator) :
  build_run_opts (set_client c o) = build_run_opts o.
Proof. reflexivity. Qed.

Lemma build_run_opts_set_arn (a : option string) (o : ECSOperator) :
  build_run_opts (set_arn a o) = build_run_opts o.
Proof. reflexivity. Qed.

Lemma start_or_reattach_plain (context : Context) (st : state) :
  reattach (self st) = false →
  start_or_reattach context st =
    if truthy (arn (self st)) then (Return (), st) else _start_task context st.
Proof.
  intros Hre. unfold start_or_reattach, M_bind at 1.
  unfold M_bind at 1, get_self at 1. rewrite Hre. cbn [truthy truthy_bool M_ret].
  unfold M_bind, get_self. by destruct (truthy (arn (self st))).
Qed.

(** X9: a run that starts its task, in full. With no reattachment, no
    handle yet, and a start answered with no failure and a first task of arn
    [a], [execute] issues the start request, waits for [a], has [a]
    described and fetches its log events, in this order. It ends as the loop
    over the log events ends when a time stamp has no datetime, and
    otherwise as the evaluation of the description ends; on success it
    fetches the log events once more when [do_xcom_push] is enabled, to
    return the last message. The XCom table is left alone. *)
Theorem execute_fresh_run (conn : ECSProtocol) (datetime : Datetime)
    (logs : AwsLogsHook) (context : Context) (st : state) (t : Task)
    (ts : list Task) (a : string) :
  reattach (self st) = false → truthy (arn (self st)) = false →
  failures (run_task conn (build_run_opts (self st))) = Some [] →
  tasks (run_task conn (build_run_opts (self st))) = Some (t :: ts) →
  taskArn t = Some a → a ≠ EmptyString →
  let o := set_arn (Some a) (set_client (Some conn) (self st)) in
  let asked :=
    calls st ++ CallRunTask (build_run_opts (self st)) :: supervised o a in
  execute conn datetime logs context st =
    match
      match log_each_event datetime (fetched logs o) with
      | Raise e => Raise e
      | Return _ => check_response (describe_tasks conn (cluster (self st)) [a])
      end
    with
    | Raise e => (Raise e, mkState o asked (xcom st))
    | Return _ =>
        (Return (if do_xcom_push (self st) then expected_message logs o else None),
         mkState o (asked ++ if do_xcom_push (self st) then log_calls o else [])
           (xcom st))
    end.
Proof.
  intros Hre Harn Hf Ht Ha Hne. cbv zeta.
  rewrite execute_phases. unfold M_bind at 1.
  rewrite start_or_reattach_plain by done. unfold connected at 1 2.
  cbn [self arn set_client]. rewrite Harn.
  rewrite (start_task_run context _ conn) by done. cbv zeta.
  unfold connected. cbn [self calls xcom].
  rewrite build_run_opts_set_client, Hf, Ht, Ha.
  cbn [reattach set_client]. rewrite Hre.
  rewrite (finish_run datetime logs _ conn a) by done.
  cbn [self calls xcom started cluster do_xcom_push set_arn set_client].
  unfold after_success. cbn [self reattach set_arn set_client xcom]. rewrite Hre.
  unfold evaluated, result_bind.
  destruct (log_each_event _ _) as [[]|e]; [|by rewrite <- !app_assoc].
  destruct (check_response _) as [[]|e]; by rewrite <- !app_assoc.
Qed.

Lemma execute_fresh_run_witness :
  let st := Fixture.fresh (Fixture.quiet Fixture.plain) in
  let conn := Fixture.service [] [Fixture.exited 0] in
  execute conn Fixture.utc Fixture.logs Fixture.context st =
    (Return None,
     mkState (set_arn (Some Fixture.task_arn) (set_client (Some conn) (self st)))
       [CallRunTask (build_run_opts (self st));
        CallWait "tasks_stopped" "c" [Fixture.task_arn];
        CallDescribeTasks "c" [Fixture.task_arn];
        CallGetLogEvents "/ecs/t" "ecs/app/d8c67b3c"] ∅).
Proof.
  intros st conn.
  rewrite (execute_fresh_run conn Fixture.utc Fixture.logs Fixture.context st
             (mkTask (Some Fixture.task_arn) None None) [] Fixture.task_arn);
    [by vm_compute | reflexivity.. | done].
Defined.

(** X10: [execute] on an operator that has a handle and no reattachment
    starts nothing: it waits for the handle it has, has it described, goes
    through its log events and evaluates the description, and issues no
    start request. *)
Theorem execute_with_handle_starts_nothing (conn : ECSProtocol) (datetime : Datetime)
    (logs : AwsLogsHook) (context : Context) (st : state) (a : string) :
  reattach (self st) = false → arn (self st) = Some a → a ≠ EmptyString →
  let o := set_client (Some conn) (self st) in
  let out := execute conn datetime logs context st in
  out.1 = match
            match log_each_event datetime (fetched logs o) with
            | Raise e => Raise e
            | Return _ => check_response (describe_tasks conn (cluster (self st)) [a])
            end
          with
          | Raise e => Raise e
          | Return _ =>
              Return (if do_xcom_push (self st) then expected_message logs o else None)
          end ∧
  self out.2 = o ∧ xcom out.2 = xcom st ∧
  (∃ l, calls out.2 = calls st ++ supervised o a ++ l ∧ l ⊆ log_calls o) ∧
  ∀ run_opts, CallRunTask run_opts ∉ drop (length (calls st)) (calls out.2).
Proof.
  intros Hre Harn Hne. cbv zeta.
  assert (execute conn datetime logs context st =
          finish datetime logs (connected conn st)) as ->.
  { rewrite execute_phases. unfold M_bind at 1.
    rewrite start_or_reattach_plain by done. unfold connected at 1.
    cbn [self arn set_client]. rewrite Harn. by destruct a. }
  rewrite (finish_run datetime logs _ conn a) by done.
  unfold after_success, connected.
  cbn [self calls xcom cluster do_xcom_push reattach set_client]. rewrite Hre.
  assert (∀ l, l ⊆ log_calls (set_client (Some conn) (self st)) →
          ∀ run_opts,
            CallRunTask run_opts ∉
              drop (length (calls st))
                (calls st ++ supervised (set_client (Some conn) (self st)) a ++ l))
    as Hno.
  { intros l Hl run_opts. rewrite drop_app_length. unfold supervised.
    rewrite <- app_assoc. cbn [app]. rewrite !not_elem_of_cons, not_elem_of_app.
    assert (CallRunTask run_opts ∉ log_calls (set_client (Some conn) (self st))) as Hlog.
    { unfold log_calls. destruct (_aws_logs_enabled _); [|apply not_elem_of_nil].
      destruct (arn _); [|apply not_elem_of_nil].
      rewrite not_elem_of_cons. split; [done | apply not_elem_of_nil]. }
    repeat split; [done..| |]; [done | by intros ?%Hl]. }
  assert ((if do_xcom_push (self st)
           then log_calls (set_client (Some conn) (self st)) else [])
          ⊆ log_calls (set_client (Some conn) (self st))) as Hsub
    by (destruct (do_xcom_push _); [done | apply list_subseteq_nil]).
  assert (∀ e : exn,
    (Raise e : result (option string)) = Raise e ∧
    set_client (Some conn) (self st) = set_client (Some conn) (self st) ∧
    xcom st = xcom st ∧
    (∃ l, calls st ++ supervised (set_client (Some conn) (self st)) a =
          calls st ++ supervised (set_client (Some conn) (self st)) a ++ l ∧
          l ⊆ log_calls (set_client (Some conn) (self st))) ∧
    ∀ run_opts,
      CallRunTask run_opts ∉
        drop (length (calls st))
          (calls st ++ supervised (set_client (Some conn) (self st)) a)) as Hraise.
  { intros e. split; [done|]. split; [done|]. split; [done|]. split.
    - exists []. split; [by rewrite app_nil_r | apply list_subseteq_nil].
    - specialize (Hno [] (list_subseteq_nil _)). by rewrite app_nil_r in Hno. }
  unfold evaluated, result_bind.
  destruct (log_each_event _ _) as [[]|e]; cbn [fst snd self calls xcom];
    [|by apply Hraise].
  destruct (check_response _) as [[]|e]; cbn [fst snd self calls xcom];
    [|by apply Hraise].
  split; [done|]. split; [done|]. split; [done|].
  split; [by eauto | by apply Hno].
Qed.

Lemma execute_with_handle_starts_nothing_witness :
  let st := mkState (set_arn (Some Fixture.task_arn) Fixture.plain) [] ∅ in
  let out :=
    execute (Fixture.service [] [Fixture.exited 0]) Fixture.utc Fixture.logs
      Fixture.context st in
  out.1 = Return (Some "done") ∧
  ∀ run_opts, CallRunTask run_opts ∉ calls out.2.
Proof.
  intros st out.
  destruct (execute_with_handle_starts_nothing (Fixture.service [] [Fixture.exited 0])
              Fixture.utc Fixture.logs Fixture.context st Fixture.task_arn
              eq_refl eq_refl)
    as (Hres & _ & _ & _ & Hno); [done|].
  subst out. split; [rewrite Hres; by vm_compute | exact Hno].
Defined.

Lemma try_reattach_raises (st st' : state) (c : ECSProtocol) (e : exn) :
  client (self st) = Some c →
  _try_reattach_task st = (Raise e, st') →
  e = TypeError "context" ∨
  ∃ k, e = KeyError k ∧ k ∈ ["taskDefinition"; "family"; "taskArns"].
Proof.
  intros Hc.
  unfold _try_reattach_task, M_bind, get_self, the_client, M_bind, get_self,
    issue, modify, lift, xcom_pull, M_raise.
  rewrite Hc. cbn.
  destruct (taskDefinition _) as [td|]; cbn;
    [|intros [= <- _]; right; eexists; split; [done|]; apply elem_of_cons; by left].
  destruct (family td) as [fam|]; cbn;
    [|intros [= <- _]; right; eexists; split; [done|]; rewrite !elem_of_cons; by auto].
  destruct (taskArns _) as [running|]; cbn;
    [|intros [= <- _]; right; eexists; split; [done|]; rewrite !elem_of_cons; by auto].
  intros [= <- _]. by left.
Qed.

Lemma start_task_raises (context : Context) (st st' : state) (c : ECSProtocol)
    (e : exn) :
  client (self st) = Some c →
  _start_task context st = (Raise e, st') →
  let response := run_task c (build_run_opts (self st)) in
  match e with
  | ECSOperatorError fs m => m = response ∧ failures response = Some fs ∧ fs ≠ []
  | KeyError k => k ∈ ["failures"; "tasks"; "taskArn"]
  | IndexError => failures response = Some [] ∧ tasks response = Some []
  | _ => False
  end.
Proof.
  intros Hc. rewrite (start_task_run context st c Hc). cbv zeta.
  destruct (failures _) as [[|f fs]|] eqn:Ef.
  - destruct (tasks _) as [[|t ts]|] eqn:Et.
    + by intros [= <- _].
    + destruct (taskArn t); [done|]. intros [= <- _]. rewrite !elem_of_cons. by auto.
    + intros [= <- _]. rewrite !elem_of_cons. by auto.
  - by intros [= <- _].
  - intros [= <- _]. rewrite !elem_of_cons. by auto.
Qed.

Lemma finish_idle (datetime : Datetime) (logs : AwsLogsHook) (st : state) :
  arn (self st) = Some EmptyString → ∃ v st', finish datetime logs st = (Return v, st').
Proof.
  intros Ha.
  assert (nothing_to_do (self st) = true) as Hn
    by (apply nothing_to_do_true; right; by rewrite Ha).
  unfold finish, M_bind at 1. rewrite wait_run, Hn.
  unfold M_bind at 1. unfold _check_success_task, M_bind at 1, get_self at 1.
  rewrite Hn. cbn [M_ret].
  unfold M_bind at 1. unfold M_bind at 1, get_self at 1.
  destruct (truthy (reattach (self st))); cbn [_xcom_del modify M_ret];
    unfold M_bind, get_self; cbn [self];
    (destruct (truthy (do_xcom_push (self st))); [|by eauto]);
    rewrite (last_log_message_run logs _ EmptyString) by done; by eauto.
Qed.

Lemma finish_raises (datetime : Datetime) (logs : AwsLogsHook) (st st' : state)
    (c : ECSProtocol) (a : string) (e : exn) :
  client (self st) = Some c → arn (self st) = Some a →
  finish datetime logs st = (Raise e, st') →
  a ≠ EmptyString ∧ self st' = self st ∧
  evaluated datetime logs (self st) (describe_tasks c (cluster (self st)) [a]) = Raise e.
Proof.
  intros Hc Ha Hf. destruct a as [|x a].
  - destruct (finish_idle datetime logs st Ha) as (v & st2 & H). congruence.
  - rewrite (finish_run datetime logs st c (String x a)) in Hf by done.
    destruct (evaluated _ _ _ _) as [[]|e']; [done|]. by injection Hf as <- <-.
Qed.

(** The loop over the events raises what the conversion of one of them
    raises. *)
Lemma log_each_event_raises (datetime : Datetime) (events : list LogEvent) (e : exn) :
  log_each_event datetime events = Raise e →
  ∃ event u, event ∈ events ∧
             fromtimestamp datetime (timestamp event) = Some u ∧
             e = unrepresentable_exn u.
Proof.
  induction events as [|event events IH]; cbn; [done|].
  destruct (fromtimestamp datetime (timestamp event)) as [u|] eqn:Eu.
  - intros [= <-]. exists event, u. split; [apply elem_of_cons; by left | done].
  - intros (event' & u & Hin & H)%IH. exists event', u.
    split; [apply elem_of_cons; by right | done].
Qed.

Lemma evaluated_raises (datetime : Datetime) (logs : AwsLogsHook) (o : ECSOperator)
    (response : Response) (e : exn) :
  evaluated datetime logs o response = Raise e →
  (∃ event u, event ∈ fetched logs o ∧
              fromtimestamp datetime (timestamp event) = Some u ∧
              e = unrepresentable_exn u) ∨
  (log_each_event datetime (fetched logs o) = Return () ∧
   check_response response = Raise e).
Proof.
  unfold evaluated, result_bind.
  destruct (log_each_event _ _) as [[]|e'] eqn:El.
  - by right.
  - intros [= <-]. left. by apply (log_each_event_raises datetime).
Qed.

(** X11: what [execute] can raise, and what each exception says. It never
    raises [AttributeError]. A [TypeError] is that of the call of
    [xcom_pull] without its context, with reattachment enabled. An
    [ECSOperatorError] carries the start response and its failures, which
    are not empty; an [IndexError] means a start response with no failure
    and no task; a [KeyError] names one of the keys the methods index. A
    [ValueError], [OverflowError] or [OSError] is what the conversion of the
    time stamp of a fetched log event raises. An [AirflowException] comes
    with a handle whose log events all have a datetime, and is borne out by
    the description of that handle. *)
Theorem execute_exceptions (conn : ECSProtocol) (datetime : Datetime)
    (logs : AwsLogsHook) (context : Context) (st st' : state) (e : exn) :
  execute conn datetime logs context st = (Raise e, st') →
  let response := run_task conn (build_run_opts (self st)) in
  match e with
  | AttributeError _ => False
  | TypeError missing => missing = "context" ∧ reattach (self st) = true
  | ECSOperatorError fs m => m = response ∧ failures response = Some fs ∧ fs ≠ []
  | IndexError => failures response = Some [] ∧ tasks response = Some []
  | KeyError k => k ∈ indexed_keys
  | ValueError | OverflowError | OSError =>
      ∃ a event u,
        arn (self st') = Some a ∧ a ≠ EmptyString ∧
        event ∈ fetched logs (self st') ∧
        fromtimestamp datetime (timestamp event) = Some u ∧
        e = unrepresentable_exn u
  | AirflowException _ =>
      ∃ a, arn (self st') = Some a ∧ a ≠ EmptyString ∧
           log_each_event datetime (fetched logs (self st')) = Return () ∧
           justified (describe_tasks conn (cluster (self st)) [a]) e
  end.
Proof.
  rewrite execute_phases. cbv zeta.
  intros [([] & st1 & H1 & H2) | (e' & H1 & [= <-])]%M_bind_inv.
  - pose proof H1 as (Hs1 & _ & _ & _ & Hr)%start_or_reattach_frame.
    destruct (Hr eq_refl) as [a Ha].
    assert (client (self st1) = Some conn ∧ cluster (self st1) = cluster (self st))
      as [Hc1 Hcl] by by rewrite Hs1.
    apply (finish_raises datetime logs st1 st' conn a e Hc1 Ha) in H2
      as (Hne & Hs' & Hev).
    rewrite Hcl, <- Hs' in Hev. rewrite <- Hs' in Ha.
    apply evaluated_raises in Hev
      as [(event & u & Hin & Hu & ->) | [Hlog Hch]].
    + destruct u; cbn; by eexists a, event, _.
    + pose proof (check_response_justified _ _ Hch) as Hj.
      destruct e as [m| | k | | | | | |]; try done.
      * by exists a.
      * unfold indexed_keys. rewrite !elem_of_cons.
        destruct Hj as [[-> _] | [[-> _] | [-> _]]]; by auto 15.
  - unfold start_or_reattach in H1.
    apply M_bind_inv in H1 as [([] & st1 & H1 & H2) | (e' & H1 & [= <-])].
    + assert (self st1 = set_arn (arn (self st1)) (self (connected conn st)))
        as Hs1.
      { unfold M_bind, get_self in H1.
        destruct (truthy (reattach (self (connected conn st)))).
        - by apply try_reattach_frame in H1 as (_ & _ & ? & ? & _).
        - injection H1 as <-. by rewrite set_arn_same. }
      assert (client (self st1) = Some conn ∧
              build_run_opts (self st1) = build_run_opts (self st))
        as [Hc1 Hb] by by rewrite Hs1.
      unfold M_bind, get_self in H2.
      destruct (negb (truthy (arn (self st1)))); [|done].
      apply (start_task_raises context st1 st' conn e Hc1) in H2.
      cbv zeta in H2. rewrite Hb in H2.
      destruct e as [m| fs m | k | | | | | |]; try done.
      unfold indexed_keys. rewrite !elem_of_cons in *.
      destruct H2 as [-> | [-> | [-> | ?]]]; by auto 15.
    + unfold M_bind, get_self in H1.
      destruct (truthy (reattach (self (connected conn st)))) eqn:Hre; [|done].
      apply (try_reattach_raises _ _ conn) in H1 as [-> | (k & -> & Hk)]; [|  |done].
      * done.
      * unfold indexed_keys. rewrite !elem_of_cons in *.
        destruct Hk as [-> | [-> | [-> | ?]]]; by auto 15.
Qed.

Lemma execute_exceptions_witness :
  let run :=
    execute Fixture.refusing Fixture.utc Fixture.logs Fixture.context
      (Fixture.fresh Fixture.plain) in
  ∃ fs m, run.1 = Raise (ECSOperatorError fs m) ∧ fs ≠ [].
Proof.
  intros run.
  assert (∃ fs m, run = (Raise (ECSOperatorError fs m), run.2)) as (fs & m & Hrun)
    by (eexists _, _; by vm_compute).
  exists fs, m. split; [by rewrite Hrun|].
  by destruct (execute_exceptions _ _ _ _ _ _ _ Hrun) as (_ & _ & ?).
Defined.

(** ** The start request, the retry predicate, the table, the logs *)

Lemma set_if_given_eq {A} (key : string) (f : A → pyval) (x : option A)
    (m : gmap string pyval) :
  set_if_given key f x m !! key = match x with Some a => Some (f a) | None => m !! key end.
Proof. destruct x; cbn; [by rewrite lookup_insert_eq | done]. Qed.

(** The launch part of the request, seen from any other key. *)
Lemma launch_part_other (o : ECSOperator) (base : gmap string pyval) (k : string) :
  k ≠ "capacityProviderStrategy" → k ≠ "platformVersion" → k ≠ "launchType" →
  (if truthy (capacity_provider_strategy o) then
     <["platformVersion" := PStr (platform_version o)]>
       (<["capacityProviderStrategy" :=
            PList (default [] (capacity_provider_strategy o))]> base)
   else if truthy (launch_type o) then
     let run_opts := <["launchType" := PStr (default EmptyString (launch_type o))]> base in
     if bool_decide (launch_type o = Some "FARGATE") then
       <["platformVersion" := PStr (platform_version o)]> run_opts
     else run_opts
   else base) !! k = base !! k.
Proof.
  intros H1 H2 H3. cbv zeta.
  destruct (truthy (capacity_provider_strategy o)); [by rewrite !lookup_insert_ne|].
  destruct (truthy (launch_type o)); [|done].
  destruct (bool_decide _); by rewrite !lookup_insert_ne.
Qed.

(** X12: the arguments of the start request besides the launch fields.
    'cluster', 'taskDefinition', 'overrides' and 'startedBy' are always there,
    with the values of the operator; 'group', 'placementConstraints',
    'placementStrategy', 'networkConfiguration', 'tags' and 'propagateTags'
    are there exactly when the attribute is not [None], an empty list
    included; the tags go as a list of key and value pairs in their order;
    and the request has no argument outside the thirteen known ones. *)
Theorem run_opts_arguments (o : ECSOperator) :
  let r := build_run_opts o in
  r !! "cluster" = Some (PStr (cluster o)) ∧
  r !! "taskDefinition" = Some (PStr (task_definition o)) ∧
  r !! "overrides" = Some (overrides o) ∧
  r !! "startedBy" = Some (PStr (owner o)) ∧
  r !! "group" = PStr <$> group o ∧
  r !! "placementConstraints" = PList <$> placement_constraints o ∧
  r !! "placementStrategy" = PList <$> placement_strategy o ∧
  r !! "networkConfiguration" = network_configuration o ∧
  r !! "tags" =
    (λ l, PList ((λ kv, PDict [("key", PStr kv.1); ("value", PStr kv.2)]) <$> l))
      <$> tags o ∧
  r !! "propagateTags" = PStr <$> propagate_tags o ∧
  ∀ k, is_Some (r !! k) → k ∈ known_keys.
Proof.
  cbv zeta. unfold build_run_opts. cbv zeta.
  repeat split.
  - rewrite !set_if_given_ne, launch_part_other by done. by simplify_map_eq.
  - rewrite !set_if_given_ne, launch_part_other by done. by simplify_map_eq.
  - rewrite !set_if_given_ne, launch_part_other by done. by simplify_map_eq.
  - rewrite !set_if_given_ne, launch_part_other by done. by simplify_map_eq.
  - rewrite !set_if_given_ne by done. rewrite set_if_given_eq.
    destruct (group o); [done|]. rewrite launch_part_other by done. by simplify_map_eq.
  - rewrite !set_if_given_ne by done. rewrite set_if_given_eq.
    destruct (placement_constraints o); [done|].
    rewrite !set_if_given_ne, launch_part_other by done. by simplify_map_eq.
  - rewrite !set_if_given_ne by done. rewrite set_if_given_eq.
    destruct (placement_strategy o); [done|].
    rewrite !set_if_given_ne, launch_part_other by done. by simplify_map_eq.
  - rewrite !set_if_given_ne by done. rewrite set_if_given_eq.
    destruct (network_configuration o); [done|].
    rewrite !set_if_given_ne, launch_part_other by done. by simplify_map_eq.
  - rewrite !set_if_given_ne by done. rewrite set_if_given_eq.
    destruct (tags o); [done|].
    rewrite !set_if_given_ne, launch_part_other by done. by simplify_map_eq.
  - rewrite set_if_given_eq.
    destruct (propagate_tags o); [done|].
    rewrite !set_if_given_ne, launch_part_other by done. by simplify_map_eq.
  - intros k Hk. destruct (decide (k ∈ known_keys)) as [|Hn]; [done|exfalso].
    unfold known_keys in Hn. rewrite !not_elem_of_cons in Hn.
    destruct Hn as (?&?&?&?&?&?&?&?&?&?&?&?&?&_).
    rewrite !set_if_given_ne, launch_part_other in Hk by done.
    rewrite !lookup_insert_ne, lookup_empty in Hk by done. by destruct Hk.
Qed.

(** X13: with no capacity-provider strategy, or an empty one, and no launch
    type, or an empty one, the start request names neither and carries no
    platform version: the choice is left to the cluster. *)
Theorem run_opts_without_launch_fields (o : ECSOperator) :
  truthy (capacity_provider_strategy o) = false → truthy (launch_type o) = false →
  build_run_opts o !! "capacityProviderStrategy" = None ∧
  build_run_opts o !! "launchType" = None ∧
  build_run_opts o !! "platformVersion" = None.
Proof.
  intros Hs Hl. rewrite !build_run_opts_launch_fields by auto.
  by rewrite Hs, Hl.
Qed.

Lemma run_opts_without_launch_fields_witness :
  let o := set_arn None (__init__ "task" "dag" "airflow" true "t" "c" (PDict [])
             None None None (Some []) None None None "LATEST" None None
             None None None None None false) in
  build_run_opts o !! "capacityProviderStrategy" = None ∧
  build_run_opts o !! "launchType" = None ∧
  build_run_opts o !! "platformVersion" = None.
Proof.
  intros o. apply (run_opts_without_launch_fields o); reflexivity.
Defined.

Lemma any_reason_raises (q : string) (fs : list Failure.t) (e : exn) :
  any_reason q fs = Raise e ↔ e = KeyError "reason" ∧ stumbles q fs.
Proof.
  induction fs as [|f fs IH]; simpl.
  - split; [done|]. intros (_ & pre & g & post & H & _). by destruct pre.
  - destruct (Failure.reason f) as [r|] eqn:Er; cbn.
    + destruct (Str.contains q r) eqn:Ec.
      * split; [done|]. intros (_ & pre & g & post & H & Hg & Hpre).
        destruct pre as [|p pre]; simpl in H; injection H as <- ->; [congruence|].
        apply Forall_cons in Hpre as [(r' & Hr' & Hc') _]. congruence.
      * rewrite IH. split.
        -- intros (-> & pre & g & post & -> & Hg & Hpre). split; [done|].
           exists (f :: pre), g, post. split; [done|]. split; [done|].
           constructor; [by exists r | done].
        -- intros (-> & pre & g & post & H & Hg & Hpre). split; [done|].
           destruct pre as [|p pre]; simpl in H; injection H as <- ->; [congruence|].
           apply Forall_cons in Hpre as [_ Hpre]. by exists pre, g, post.
    + split.
      * intros [= <-]. split; [done|]. by exists [], f, fs.
      * intros (-> & _). done.
Qed.

Lemma any_reason_false_all (q : string) (fs : list Failure.t) :
  any_reason q fs = Return false → Forall (λ f, is_Some (Failure.reason f)) fs.
Proof.
  induction fs as [|f fs IH]; simpl; [by constructor|].
  destruct (Failure.reason f) as [r|] eqn:Er; cbn; [|done].
  destruct (Str.contains q r); [done|]. intros H. constructor; [by rewrite Er | auto].
Qed.

Lemma any_reason_all_returns (q : string) (fs : list Failure.t) :
  Forall (λ f, is_Some (Failure.reason f)) fs → ∃ b, any_reason q fs = Return b.
Proof.
  induction 1 as [|f fs [r Hr] _ [b IH]]; simpl; [by exists false|].
  rewrite Hr. cbn. destruct (Str.contains q r); [by exists true | by exists b].
Qed.

(** X14: when the predicate of the retry itself fails.  [should_retry] raises
    exactly when the failures have an entry without a reason and no entry
    before it names 'RESOURCE:MEMORY'; the exception is then
    [KeyError('reason')].  An entry naming 'RESOURCE:CPU' before the one
    without a reason does not help, for the memory marker is looked for in
    every entry first. *)
Theorem should_retry_raises_iff (fs : list Failure.t) (response : Response) (e : exn) :
  should_retry (ECSOperatorError fs response) = Raise e ↔
  e = KeyError "reason" ∧ stumbles "RESOURCE:MEMORY" fs.
Proof.
  rewrite <- any_reason_raises. cbn [should_retry any_quota].
  destruct (any_reason "RESOURCE:MEMORY" fs) as [[]|e'] eqn:E; cbn; [done| |done].
  destruct (any_reason_all_returns "RESOURCE:CPU" fs (any_reason_false_all _ _ E))
    as [b ->].
  cbn. by destruct b.
Qed.

(** What the deletion of the XCom rows does to a look-up. *)
Lemma xcom_del_lookup (task_id' : string) (st : state) (k : XComKey) :
  xcom (_xcom_del task_id' st).2 !! k =
    if bool_decide (k.1.1 = dag_id (self st) ∧ k.1.2 = task_id') then None
    else xcom st !! k.
Proof.
  unfold _xcom_del, modify. cbn [fst snd self calls xcom].
  case_bool_decide as Hk.
  - apply map_lookup_filter_None. right. intros v _ Hn. by apply Hn.
  - destruct (xcom st !! k) as [v|] eqn:Ev.
    + by apply map_lookup_filter_Some.
    + apply map_lookup_filter_None. by left.
Qed.

(** X15: writing a row of the XCom table and deleting the rows of a task id.
    Deleting the rows of the task id a row was written under takes the row
    away whatever its key: the table is as if the row had never been written,
    and is the table from before the write when that had no row of the task
    id in this DAG.  Deleting the rows of another task id leaves the row
    readable.  Neither touches the operator or the trace of requests. *)
Theorem xcom_set_then_del (context : Context) (key value task_id' other : string)
    (st : state) :
  let written := (_xcom_set context key value task_id' st).2 in
  xcom (_xcom_del task_id' written).2 = xcom (_xcom_del task_id' st).2 ∧
  ((∀ k, k.1.1 = dag_id (self st) → k.1.2 = task_id' → xcom st !! k = None) →
   xcom (_xcom_del task_id' written).2 = xcom st) ∧
  (other ≠ task_id' →
   xcom (_xcom_del other written).2 !! (dag_id (self st), task_id', key) = Some value) ∧
  self (_xcom_del task_id' written).2 = self st ∧
  calls (_xcom_del task_id' written).2 = calls st.
Proof.
  cbv zeta.
  assert (Hsame : xcom (_xcom_del task_id' (_xcom_set context key value task_id' st).2).2
                  = xcom (_xcom_del task_id' st).2).
  { apply map_eq. intros k. rewrite !xcom_del_lookup.
    unfold _xcom_set, modify. cbn [fst snd self calls xcom].
    case_bool_decide as Hk; [done|].
    apply lookup_insert_ne. intros <-. by apply Hk. }
  split; [exact Hsame|]. split; [|split; [|done]].
  - intros Hnone. rewrite Hsame. apply map_eq. intros k. rewrite xcom_del_lookup.
    case_bool_decide as Hk; [|done]. destruct Hk as [H1 H2]. symmetry. by apply Hnone.
  - intros Hne. rewrite xcom_del_lookup.
    unfold _xcom_set, modify. cbn [fst snd self calls xcom].
    rewrite bool_decide_eq_false_2 by (intros [_ H]; by apply Hne).
    apply lookup_insert_eq.
Qed.

Lemma append_assoc_cons (a y : string) (sep : ascii) (x : string) :
  a +:+ String sep (y +:+ String sep x) = (a +:+ String sep y) +:+ String sep x.
Proof.
  induction a as [|c a IHa]; [done|].
  change (String c (a +:+ String sep (y +:+ String sep x)) =
          String c ((a +:+ String sep y) +:+ String sep x)).
  by rewrite IHa.
Qed.

Lemma join_snoc (sep : ascii) (l : list string) (x : string) :
  l ≠ [] → Str.join sep (l ++ [x]) = Str.join sep l +:+ String sep x.
Proof.
  induction l as [|a l IH]; [done|]. intros _.
  destruct l as [|b l]; [done|].
  change (Str.join sep ((a :: b :: l) ++ [x]))
    with (a +:+ String sep (Str.join sep ((b :: l) ++ [x]))).
  rewrite IH by done.
  change (Str.join sep (a :: b :: l)) with (a +:+ String sep (Str.join sep (b :: l))).
  apply append_assoc_cons.
Qed.

(** [s.split(sep)[-1]] is what follows the last separator. *)
Lemma split_last (sep : ascii) (s : string) :
  ∃ x, last (Str.split sep s) = Some x ∧
    Str.contains (String sep EmptyString) x = false ∧
    (s = x ∨ ∃ pre, s = pre +:+ String sep x).
Proof.
  pose proof (split_join sep s) as Hj. pose proof (split_no_sep sep s) as Hn.
  pose proof (split_not_nil sep s) as Hnn.
  destruct (Str.split sep s) as [|h l _] using rev_ind; [done|].
  exists h. rewrite last_snoc. split; [done|].
  apply Forall_app in Hn as [_ Hh]. apply Forall_cons in Hh as [Hh _].
  split; [done|].
  destruct (decide (l = [])) as [->|Hl]; [by left|].
  right. exists (Str.join sep l). by rewrite <- Hj, join_snoc.
Qed.

(** X16: the stream the log events are read from.  With the log group and
    the stream prefix set and the arn of a task, [_cloudwatch_log_events]
    makes one request, for the stream named by the prefix, a slash and the
    part of the arn after its last slash (the whole arn when it has none),
    and gives the events of that stream. *)
Theorem log_stream_of_task (logs : AwsLogsHook) (st : state) (a g p : string) :
  arn (self st) = Some a →
  awslogs_group (self st) = Some g → g ≠ EmptyString →
  awslogs_stream_prefix (self st) = Some p → p ≠ EmptyString →
  ∃ task_id,
    Str.contains "/" task_id = false ∧
    (a = task_id ∨ ∃ pre, a = pre +:+ "/" +:+ task_id) ∧
    _cloudwatch_log_events logs st =
      (Return (get_log_events logs g (p +:+ "/" +:+ task_id)),
       mkState (self st) (calls st ++ [CallGetLogEvents g (p +:+ "/" +:+ task_id)])
         (xcom st)).
Proof.
  intros Ha Hg Hg' Hp Hp'.
  destruct (split_last "/" a) as (x & Hx & Hc & Hs).
  exists x. split; [done|]. split; [done|].
  unfold _cloudwatch_log_events, M_bind, get_self, lift, issue, modify, _aws_logs_enabled.
  rewrite Ha, Hg, Hp. 
  destruct g; [done|]. destruct p; [done|]. cbn.
  unfold last_item. by rewrite Hx.
Qed.

Lemma log_stream_of_task_witness :
  ∃ task_id,
    Str.contains "/" task_id = false ∧
    (Fixture.task_arn = task_id ∨ ∃ pre, Fixture.task_arn = pre +:+ "/" +:+ task_id) ∧
    (_cloudwatch_log_events Fixture.logs (Fixture.supervising (Fixture.service [] []))).1 =
      Return (get_log_events Fixture.logs "/ecs/t" ("ecs/app" +:+ "/" +:+ task_id)).
Proof.
  destruct (log_stream_of_task Fixture.logs (Fixture.supervising (Fixture.service [] []))
              Fixture.task_arn "/ecs/t" "ecs/app" eq_refl eq_refl ltac:(done) eq_refl
              ltac:(done)) as (x & H1 & H2 & H3).
  exists x. split; [done|]. split; [done|]. by rewrite H3.
Defined.

(** ** Cancellation *)

(** [on_kill] in closed form. *)
Lemma on_kill_run (st : state) :
  on_kill st =
    (Return (),
     if nothing_to_do (self st) then st
     else mkState (self st)
            (calls st ++ [CallStopTask (cluster (self st))
                            (default EmptyString (arn (self st)))
                            "Task killed by the user"])
            (xcom st)).
Proof.
  unfold on_kill, M_bind, get_self, the_client, M_bind, get_self, issue, modify.
  destruct (nothing_to_do (self st)) eqn:E; [done|].
  unfold nothing_to_do in E. destruct (client (self st)); [done|].
  by destruct (arn (self st)).
Qed.

(** X17: cancellation after a start, for an operator that holds no task
    yet.  When [_start_task] has returned, [on_kill] asks the service to stop
    the task that was just started, the first of the response, and nothing
    else; when [_start_task] has raised, whatever the reason, [on_kill]
    issues no request and leaves the state as it is. *)
Theorem kill_after_start (context : Context) (st : state) (c : ECSProtocol) :
  client (self st) = Some c → truthy (arn (self st)) = false →
  let out := _start_task context st in
  match out.1 with
  | Return _ =>
      ∃ t ts a,
        tasks (run_task c (build_run_opts (self st))) = Some (t :: ts) ∧
        taskArn t = Some a ∧
        on_kill out.2 =
          (Return (),
           if bool_decide (a = EmptyString) then out.2
           else mkState (self out.2)
                  (calls out.2 ++
                   [CallStopTask (cluster (self st)) a "Task killed by the user"])
                  (xcom out.2))
  | Raise _ => on_kill out.2 = (Return (), out.2)
  end.
Proof.
  intros Hc Ha. cbv zeta.
  rewrite (start_task_run context st c Hc). cbv zeta.
  assert (Hidle : on_kill (started (self st) st) = (Return (), started (self st) st)).
  { rewrite on_kill_run. unfold nothing_to_do. cbn [started self].
    by rewrite Ha, orb_true_r. }
  destruct (failures (run_task c _)) as [[|f fs]|]; cbn [fst snd]; [|done..].
  destruct (tasks (run_task c _)) as [[|t ts]|] eqn:Et; cbn [fst snd]; [done| |done].
  destruct (taskArn t) as [a|] eqn:Eta; cbn [fst snd]; [|done].
  exists t, ts, a. split; [done|]. split; [done|].
  rewrite on_kill_run. cbn [self calls xcom started].
  unfold nothing_to_do. clear Et. destruct (self st) eqn:Eo. cbn in Hc. subst.
  cbn. destruct a; by cbn.
Qed.

Lemma kill_after_start_witness :
  (on_kill (_start_task Fixture.context
              (Fixture.fresh (set_client (Some (Fixture.service [] [])) Fixture.operator))).2).2
    .(calls) =
  [CallRunTask (build_run_opts Fixture.operator);
   CallStopTask "c" Fixture.task_arn "Task killed by the user"].
Proof.
  pose proof (kill_after_start Fixture.context
                (Fixture.fresh (set_client (Some (Fixture.service [] [])) Fixture.operator))
                (Fixture.service [] []) eq_refl eq_refl) as H.
  cbv zeta in H.
  destruct (_start_task _ _) as [[u|e] st1] eqn:E; cbn [fst snd] in H.
  - destruct H as (t & ts & a & Ht & Ha & Hk). cbn [snd]. rewrite Hk.
    vm_compute in Ht. injection Ht as <- <-. vm_compute in Ha. injection Ha as <-.
    vm_compute in E. destruct u. injection E as <-. by vm_compute.
  - by vm_compute in E.
Defined.
